(** * Class Whisper: the study-guide pipeline, its progress indicator and its history

    A shallow embedding of the application component [App] (the mature version
    of the front end) and of the JavaScript string operations it relies on,
    followed by the properties of the generation pipeline, of the simulated
    progress indicator and of the history list. *)

From Stdlib Require Import Ascii String DecimalString.
From Stdlib Require Import Bool Arith NArith ZArith Lia Floats List.
From Stdlib Require Import Sorted.
Import ListNotations.

(** ** JavaScript strings

    A JavaScript string is a sequence of 16-bit code units.  String literals of
    the source are written with [lit]. *)

Definition char16 := N.
Definition jsstring := list char16.

Definition lit (s : string) : jsstring :=
  map N_of_ascii (list_ascii_of_string s).

Definition LF : char16 := 10%N.
Definition QUOTE : char16 := 34%N.
Definition BACKTICK : char16 := 96%N.

Definition mem16 (c : char16) (l : list char16) : bool :=
  existsb (N.eqb c) l.

(** LineTerminator of the language: LF, CR, LS, PS. *)
Definition isLineTerminator (c : char16) : bool :=
  mem16 c [10; 13; 8232; 8233]%N.

(** The code units removed by [String.prototype.trim]: WhiteSpace (TAB, VT,
    FF, SP, NBSP, ZWNBSP and the space separators) and LineTerminator. *)
Definition isWhiteSpace (c : char16) : bool :=
  mem16 c [9; 11; 12; 32; 160; 65279; 5760; 8239; 8287; 12288]%N
  || ((8192 <=? c)%N && (c <=? 8202)%N)
  || isLineTerminator c.

Fixpoint trimStart (s : jsstring) : jsstring :=
  match s with
  | [] => []
  | c :: r => if isWhiteSpace c then trimStart r else s
  end.

Definition trimEnd (s : jsstring) : jsstring := rev (trimStart (rev s)).

Definition trim (s : jsstring) : jsstring := trimEnd (trimStart s).

Fixpoint startsWith (s p : jsstring) {struct p} : bool :=
  match p, s with
  | [], _ => true
  | _ :: _, [] => false
  | c :: p', d :: s' => (c =? d)%N && startsWith s' p'
  end.

Fixpoint includes (s sub : jsstring) : bool :=
  startsWith s sub ||
  match s with
  | [] => false
  | _ :: r => includes r sub
  end.

(** [s.slice(start, end)], negative indices counting from the end. *)
Definition slice (s : jsstring) (start end_ : Z) : jsstring :=
  let len := Z.of_nat (length s) in
  let from := if (start <? 0)%Z then Z.max (len + start) 0 else Z.min start len in
  let to := if (end_ <? 0)%Z then Z.max (len + end_) 0 else Z.min end_ len in
  firstn (Z.to_nat (to - from)) (skipn (Z.to_nat from) s).

(** A string is falsy exactly when it is empty. *)
Definition truthy (s : jsstring) : bool :=
  match s with [] => false | _ :: _ => true end.

Definition decimal (n : nat) : jsstring :=
  lit (NilEmpty.string_of_uint (Nat.to_uint n)).

(** ** The simulated progress indicator

    [progress] is a JavaScript number, that is an IEEE 754 binary64 value; the
    update function handed to [setProgress] by the interval callback of
    [startProgressSimulation] is [progressTick].  The literal [0.05] denotes
    the binary64 value nearest to it, written here in hexadecimal. *)

Module Progress.

Definition c005 : float := 0x1.999999999999ap-5%float.

Definition progressTick (prev : float) : float :=
  if (99 <=? prev)%float then 99%float
  else
    let increment := ((99 - prev) * c005)%float in
    (prev + increment)%float.

(** The value displayed after [n] ticks of the interval, from the value [p]
    that [setProgress] installed when the stage began. *)
Fixpoint ticks (n : nat) (p : float) : float :=
  match n with
  | O => p
  | S k => ticks k (progressTick p)
  end.

End Progress.

(** Tests along the ticks of one stage. *)
Module ProgressRuns.
Import Progress.

(** [along P k p]: the boolean test [P] holds of [p] and of the values after
    each of the next [k - 1] ticks. *)
Fixpoint along (P : float -> bool) (k : nat) (p : float) : bool :=
  match k with
  | O => true
  | S k' => P p && along P k' (progressTick p)
  end.

(** One tick from [p] moves strictly up and stays strictly below 99. *)
Definition rises (p : float) : bool :=
  (p <? progressTick p)%float && (p <=? progressTick p)%float
  && (progressTick p <? 99)%float.

(** The number of ticks after which the indicator stops moving, and the value
    at which it stops: ten units in the last place below 99. *)
Definition lastRise : nat := 664.
Definition restingValue : float := 0x1.8bffffffffff6p+6%float.

End ProgressRuns.

(** ** JavaScript values

    The values that [JSON.parse] returns, and [undefined].  A number is kept
    as the text of its literal.  An object is the list of its own properties;
    [objSet] assigns a property as the language does, in place when the key
    exists and at the end otherwise (the language enumerates keys that are
    array indices first; no function below depends on the order). *)

#[local] Unset Elimination Schemes.
Inductive JSValue : Type :=
| JUndefined
| JNull
| JBool (b : bool)
| JNumber (literal : jsstring)
| JString (s : jsstring)
| JArray (elems : list JSValue)
| JObject (props : list (jsstring * JSValue)).
#[local] Set Elimination Schemes.

Definition JSObject := list (jsstring * JSValue).

Definition eqs (a b : jsstring) : bool :=
  if list_eq_dec N.eq_dec a b then true else false.

Fixpoint objGet (k : jsstring) (o : JSObject) : option JSValue :=
  match o with
  | [] => None
  | (k', v) :: r => if eqs k k' then Some v else objGet k r
  end.

Fixpoint objSet (k : jsstring) (v : JSValue) (o : JSObject) : JSObject :=
  match o with
  | [] => [(k, v)]
  | (k', v') :: r => if eqs k k' then (k', v) :: r else (k', v') :: objSet k v r
  end.

(** The property is present and holds neither [null] nor [undefined]. *)
Definition populated (k : jsstring) (o : JSObject) : bool :=
  match objGet k o with
  | None | Some JUndefined | Some JNull => false
  | Some _ => true
  end.

Fixpoint indexed (i : nat) (l : list JSValue) : JSObject :=
  match l with
  | [] => []
  | v :: r => (decimal i, v) :: indexed (S i) r
  end.

(** The own enumerable properties copied by the spread [{...v}]. *)
Definition spread (v : JSValue) : JSObject :=
  match v with
  | JObject props => props
  | JArray elems => indexed 0 elems
  | JString s => indexed 0 (map (fun c => JString [c]) s)
  | JUndefined | JNull | JBool _ | JNumber _ => []
  end.

(** ** A reference reading of the JSON grammar

    The pipeline is stated over any [JSON.parse]; [JSON.parse] below follows
    the JSON grammar and serves to run the model on concrete texts. *)

Module JSON.

Definition isSpace (c : char16) : bool := mem16 c [32; 9; 10; 13]%N.

Fixpoint skipSpace (s : jsstring) : jsstring :=
  match s with
  | [] => []
  | c :: r => if isSpace c then skipSpace r else s
  end.

Definition isDigit (c : char16) : bool := ((48 <=? c) && (c <=? 57))%N.

Definition hexValue (c : char16) : option N :=
  if isDigit c then Some (c - 48)%N
  else if ((97 <=? c) && (c <=? 102))%N then Some (c - 87)%N
  else if ((65 <=? c) && (c <=? 70))%N then Some (c - 55)%N
  else None.

Definition unescape (e : char16) : option char16 :=
  if mem16 e [34; 92; 47]%N then Some e
  else if (e =? 98)%N then Some 8%N
  else if (e =? 102)%N then Some 12%N
  else if (e =? 110)%N then Some 10%N
  else if (e =? 114)%N then Some 13%N
  else if (e =? 116)%N then Some 9%N
  else None.

Definition consChar (c : char16) (r : option (jsstring * jsstring))
  : option (jsstring * jsstring) :=
  match r with
  | Some (s, rest) => Some (c :: s, rest)
  | None => None
  end.

(** The characters of a string literal after its opening quote, and the text
    after its closing quote. *)
Fixpoint stringBody (fuel : nat) (s : jsstring) : option (jsstring * jsstring) :=
  match fuel with
  | O => None
  | S f =>
      match s with
      | [] => None
      | c :: r =>
          if (c =? 34)%N then Some ([], r)
          else if (c =? 92)%N then
            match r with
            | [] => None
            | e :: r1 =>
                if (e =? 117)%N then
                  match r1 with
                  | h1 :: h2 :: h3 :: h4 :: r2 =>
                      match hexValue h1, hexValue h2, hexValue h3, hexValue h4 with
                      | Some a, Some b, Some c', Some d =>
                          consChar (((a * 16 + b) * 16 + c') * 16 + d)%N (stringBody f r2)
                      | _, _, _, _ => None
                      end
                  | _ => None
                  end
                else
                  match unescape e with
                  | Some u => consChar u (stringBody f r1)
                  | None => None
                  end
            end
          else if (c <? 32)%N then None
          else consChar c (stringBody f r)
      end
  end.

Fixpoint digits (s : jsstring) : jsstring * jsstring :=
  match s with
  | [] => ([], [])
  | c :: r => if isDigit c then let (d, rest) := digits r in (c :: d, rest) else ([], s)
  end.

Definition someDigits (s : jsstring) : option (jsstring * jsstring) :=
  match digits s with
  | ([], _) => None
  | (d, rest) => Some (d, rest)
  end.

(** A number literal: an optional minus sign; a zero, or a non-zero digit
    and more digits; an optional fraction (a point and one digit or more); an
    optional exponent ([e] or [E], an optional sign, one digit or more). *)
Definition number (s : jsstring) : option (jsstring * jsstring) :=
  let (sign, s1) :=
    match s with
    | c :: r => if (c =? 45)%N then ([c], r) else ([], s)
    | [] => ([], s)
    end in
  match s1 with
  | [] => None
  | c :: r =>
      match (if (c =? 48)%N then Some ([c], r)
             else if isDigit c then someDigits s1 else None) with
      | None => None
      | Some (int, s2) =>
          match (match s2 with
                 | [] => Some ([], s2)
                 | p :: r2 =>
                     if (p =? 46)%N then
                       match someDigits r2 with
                       | Some (d, rest) => Some (p :: d, rest)
                       | None => None
                       end
                     else Some ([], s2)
                 end) with
          | None => None
          | Some (frac, s3) =>
              match (match s3 with
                     | [] => Some ([], s3)
                     | e :: r3 =>
                         if mem16 e [101; 69]%N then
                           let (esign, r4) :=
                             match r3 with
                             | g :: r5 => if mem16 g [43; 45]%N then ([g], r5) else ([], r3)
                             | [] => ([], r3)
                             end in
                           match someDigits r4 with
                           | Some (d, rest) => Some (e :: esign ++ d, rest)
                           | None => None
                           end
                         else Some ([], s3)
                     end) with
              | None => None
              | Some (ex, s4) => Some (sign ++ int ++ frac ++ ex, s4)
              end
          end
      end
  end.

Definition keyword (w : string) (v : JSValue) (s : jsstring)
  : option (JSValue * jsstring) :=
  if startsWith s (lit w) then Some (v, skipn (String.length w) s) else None.

Fixpoint value (fuel : nat) (s : jsstring) : option (JSValue * jsstring) :=
  match fuel with
  | O => None
  | S f =>
      match skipSpace s with
      | [] => None
      | c :: r =>
          if (c =? 123)%N then
            match skipSpace r with
            | [] => None
            | c2 :: r2 => if (c2 =? 125)%N then Some (JObject [], r2) else members f r []
            end
          else if (c =? 91)%N then
            match skipSpace r with
            | [] => None
            | c2 :: r2 => if (c2 =? 93)%N then Some (JArray [], r2) else elements f r []
            end
          else if (c =? 34)%N then
            match stringBody (S (List.length r)) r with
            | Some (str, rest) => Some (JString str, rest)
            | None => None
            end
          else if (c =? 116)%N then keyword "true" (JBool true) (c :: r)
          else if (c =? 102)%N then keyword "false" (JBool false) (c :: r)
          else if (c =? 110)%N then keyword "null" JNull (c :: r)
          else
            match number (c :: r) with
            | Some (n, rest) => Some (JNumber n, rest)
            | None => None
            end
      end
  end
with members (fuel : nat) (s : jsstring) (acc : JSObject) : option (JSValue * jsstring) :=
  match fuel with
  | O => None
  | S f =>
      match skipSpace s with
      | [] => None
      | c :: r =>
          if (c =? 34)%N then
            match stringBody (S (List.length r)) r with
            | None => None
            | Some (k, r1) =>
                match skipSpace r1 with
                | [] => None
                | c1 :: r2 =>
                    if (c1 =? 58)%N then
                      match value f r2 with
                      | None => None
                      | Some (v, r3) =>
                          match skipSpace r3 with
                          | [] => None
                          | c3 :: r4 =>
                              if (c3 =? 44)%N then members f r4 (objSet k v acc)
                              else if (c3 =? 125)%N then Some (JObject (objSet k v acc), r4)
                              else None
                          end
                      end
                    else None
                end
            end
          else None
      end
  end
with elements (fuel : nat) (s : jsstring) (acc : list JSValue) : option (JSValue * jsstring) :=
  match fuel with
  | O => None
  | S f =>
      match value f s with
      | None => None
      | Some (v, r) =>
          match skipSpace r with
          | [] => None
          | c :: r1 =>
              if (c =? 44)%N then elements f r1 (acc ++ [v])
              else if (c =? 93)%N then Some (JArray (acc ++ [v]), r1)
              else None
          end
      end
  end.

(** [None] stands for the [SyntaxError] that [JSON.parse] throws. *)
Definition parse (s : jsstring) : option JSValue :=
  match value (2 * List.length s + 2) s with
  | Some (v, rest) => match skipSpace rest with [] => Some v | _ :: _ => None end
  | None => None
  end.

End JSON.

(** The text that [JSON.stringify] writes for a value; [undefined] is written
    as [null] inside an array and its property is left out of an object. *)
Module JSONText.

Definition hexDigit (n : N) : char16 :=
  if (n <? 10)%N then (48 + n)%N else (87 + n)%N.

Definition uEscape (c : char16) : jsstring :=
  lit "\u" ++ map hexDigit [c / 4096; (c / 256) mod 16; (c / 16) mod 16; c mod 16]%N.

Definition isLead (c : char16) : bool := ((55296 <=? c) && (c <=? 56319))%N.
Definition isTrail (c : char16) : bool := ((56320 <=? c) && (c <=? 57343))%N.

Definition escape (c : char16) : jsstring :=
  if (c =? 34)%N then lit "\" ++ [QUOTE]
  else if (c =? 92)%N then lit "\\"
  else if (c =? 8)%N then lit "\b"
  else if (c =? 12)%N then lit "\f"
  else if (c =? 10)%N then lit "\n"
  else if (c =? 13)%N then lit "\r"
  else if (c =? 9)%N then lit "\t"
  else if (c <? 32)%N then uEscape c
  else [c].

Fixpoint quoteChars (s : jsstring) : jsstring :=
  match s with
  | [] => []
  | c :: r =>
      if isLead c then
        match r with
        | d :: r' =>
            if isTrail d then c :: d :: quoteChars r' else uEscape c ++ quoteChars r
        | [] => uEscape c
        end
      else if isTrail c then uEscape c ++ quoteChars r
      else escape c ++ quoteChars r
  end.

Definition quote (s : jsstring) : jsstring := QUOTE :: quoteChars s ++ [QUOTE].

Fixpoint stringify (v : JSValue) : jsstring :=
  match v with
  | JUndefined | JNull => lit "null"
  | JBool true => lit "true"
  | JBool false => lit "false"
  | JNumber n => n
  | JString s => quote s
  | JArray elems =>
      lit "[" ++
      (fix items (first : bool) (l : list JSValue) : jsstring :=
         match l with
         | [] => []
         | x :: r => (if first then [] else lit ",") ++ stringify x ++ items false r
         end) true elems
      ++ lit "]"
  | JObject props =>
      lit "{" ++
      (fix fields (first : bool) (l : JSObject) : jsstring :=
         match l with
         | [] => []
         | (_, JUndefined) :: r => fields first r
         | (k, x) :: r =>
             (if first then [] else lit ",") ++ quote k ++ lit ":" ++ stringify x
             ++ fields false r
         end) true props
      ++ lit "}"
  end.

End JSONText.

(** ** The data of the application *)

Record File := { name : jsstring }.

Record AudioData := { data : jsstring; mimeType : jsstring }.

(** [StudyMaterials] is an interface of the source: a value at that type is
    the object that the pipeline assembles, whatever properties it holds. *)
Definition StudyMaterials := JSObject.

Record HistoryItem := {
  id : Z;
  filename : jsstring;
  materials : StudyMaterials
}.

Record PipelineError := { message : jsstring; retryable : bool }.

Inductive Tab := TabNotes | TabDetailed | TabTranscript.

(** The state variables of [App] that the handlers below read or write, the
    interval behind [progressIntervalRef] and the item [studyHistory] of
    [localStorage]. *)
Record AppState := {
  mediaFile : option File;
  audioData : option AudioData;
  isProcessing : bool;
  loadingMessage : jsstring;
  studyMaterials : option StudyMaterials;
  error : option PipelineError;
  activeTab : Tab;
  progress : float;
  history : list HistoryItem;
  progressInterval : bool;
  localStorage : option jsstring
}.

Definition initialState (stored : option jsstring) : AppState :=
  {| mediaFile := None; audioData := None; isProcessing := false;
     loadingMessage := []; studyMaterials := None; error := None;
     activeTab := TabNotes; progress := 0%float; history := [];
     progressInterval := false; localStorage := stored |}.

(** The requests sent to the generation backend and what it answers. *)
Inductive Part :=
| InlineData (data mimeType : jsstring)
| Text (text : jsstring).

Record Config := { responseMimeType : jsstring; responseSchema : JSValue }.

Record Request := {
  model : jsstring;
  parts : list Part;
  config : option Config
}.

Record GenerateContentResponse := { text : option jsstring }.

(** A thrown value: an [Error] with its message, or a value that is not an
    instance of [Error]. *)
Inductive Thrown :=
| ErrorObject (message : jsstring)
| NotAnError.

Inductive Settled :=
| Resolved (r : GenerateContentResponse)
| Rejected (e : Thrown).

Definition Backend := Request -> Settled.

(** What a handler does to the outside: a call of [ai.models.generateContent],
    a read of the selected file, and the banner of the stage it displays. *)
Inductive Event :=
| GenerateContent (req : Request)
| ReadAsDataURL (f : File)
| SetLoadingMessage (m : jsstring).

(** ** Handlers as state transformers that may throw *)

Inductive Outcome (A : Type) :=
| Ok (a : A)
| Throw (e : Thrown).
Arguments Ok {A} a.
Arguments Throw {A} e.

Definition World : Type := AppState * list Event.

Definition M (A : Type) : Type := World -> Outcome A * World.

Definition ret {A} (a : A) : M A := fun w => (Ok a, w).

Definition bind {A B} (m : M A) (k : A -> M B) : M B :=
  fun w =>
    match m w with
    | (Ok a, w') => k a w'
    | (Throw e, w') => (Throw e, w')
    end.

Definition throw {A} (e : Thrown) : M A := fun w => (Throw e, w).

Definition tryCatch {A} (body : M A) (handler : Thrown -> M A) : M A :=
  fun w =>
    match body w with
    | (Ok a, w') => (Ok a, w')
    | (Throw e, w') => handler e w'
    end.

Definition finally {A} (body : M A) (cleanup : M unit) : M A :=
  fun w =>
    match body w with
    | (r, w') =>
        match cleanup w' with
        | (Ok _, w'') => (r, w'')
        | (Throw e, w'') => (Throw e, w'')
        end
    end.

Declare Scope handler_scope.
Delimit Scope handler_scope with handler.
Notation "x <- m ;; k" := (bind m (fun x => k))
  (at level 100, m at next level, right associativity) : handler_scope.
Notation "m ;; k" := (bind m (fun _ => k))
  (at level 100, right associativity) : handler_scope.
Open Scope handler_scope.

Definition modify (f : AppState -> AppState) : M unit :=
  fun w => (Ok tt, (f (fst w), snd w)).

Definition emit (ev : Event) : M unit :=
  fun w => (Ok tt, (fst w, snd w ++ [ev])).

Definition withMediaFile (v : option File) (st : AppState) : AppState :=
  {| mediaFile := v; audioData := audioData st; isProcessing := isProcessing st;
     loadingMessage := loadingMessage st; studyMaterials := studyMaterials st;
     error := error st; activeTab := activeTab st; progress := progress st;
     history := history st; progressInterval := progressInterval st;
     localStorage := localStorage st |}.

Definition withAudioData (v : option AudioData) (st : AppState) : AppState :=
  {| mediaFile := mediaFile st; audioData := v; isProcessing := isProcessing st;
     loadingMessage := loadingMessage st; studyMaterials := studyMaterials st;
     error := error st; activeTab := activeTab st; progress := progress st;
     history := history st; progressInterval := progressInterval st;
     localStorage := localStorage st |}.

Definition withIsProcessing (v : bool) (st : AppState) : AppState :=
  {| mediaFile := mediaFile st; audioData := audioData st; isProcessing := v;
     loadingMessage := loadingMessage st; studyMaterials := studyMaterials st;
     error := error st; activeTab := activeTab st; progress := progress st;
     history := history st; progressInterval := progressInterval st;
     localStorage := localStorage st |}.

Definition withLoadingMessage (v : jsstring) (st : AppState) : AppState :=
  {| mediaFile := mediaFile st; audioData := audioData st; isProcessing := isProcessing st;
     loadingMessage := v; studyMaterials := studyMaterials st;
     error := error st; activeTab := activeTab st; progress := progress st;
     history := history st; progressInterval := progressInterval st;
     localStorage := localStorage st |}.

Definition withStudyMaterials (v : option StudyMaterials) (st : AppState) : AppState :=
  {| mediaFile := mediaFile st; audioData := audioData st; isProcessing := isProcessing st;
     loadingMessage := loadingMessage st; studyMaterials := v;
     error := error st; activeTab := activeTab st; progress := progress st;
     history := history st; progressInterval := progressInterval st;
     localStorage := localStorage st |}.

Definition withError (v : option PipelineError) (st : AppState) : AppState :=
  {| mediaFile := mediaFile st; audioData := audioData st; isProcessing := isProcessing st;
     loadingMessage := loadingMessage st; studyMaterials := studyMaterials st;
     error := v; activeTab := activeTab st; progress := progress st;
     history := history st; progressInterval := progressInterval st;
     localStorage := localStorage st |}.

Definition withActiveTab (v : Tab) (st : AppState) : AppState :=
  {| mediaFile := mediaFile st; audioData := audioData st; isProcessing := isProcessing st;
     loadingMessage := loadingMessage st; studyMaterials := studyMaterials st;
     error := error st; activeTab := v; progress := progress st;
     history := history st; progressInterval := progressInterval st;
     localStorage := localStorage st |}.

Definition withProgress (v : float) (st : AppState) : AppState :=
  {| mediaFile := mediaFile st; audioData := audioData st; isProcessing := isProcessing st;
     loadingMessage := loadingMessage st; studyMaterials := studyMaterials st;
     error := error st; activeTab := activeTab st; progress := v;
     history := history st; progressInterval := progressInterval st;
     localStorage := localStorage st |}.

Definition withHistory (v : list HistoryItem) (st : AppState) : AppState :=
  {| mediaFile := mediaFile st; audioData := audioData st; isProcessing := isProcessing st;
     loadingMessage := loadingMessage st; studyMaterials := studyMaterials st;
     error := error st; activeTab := activeTab st; progress := progress st;
     history := v; progressInterval := progressInterval st;
     localStorage := localStorage st |}.

Definition withProgressInterval (v : bool) (st : AppState) : AppState :=
  {| mediaFile := mediaFile st; audioData := audioData st; isProcessing := isProcessing st;
     loadingMessage := loadingMessage st; studyMaterials := studyMaterials st;
     error := error st; activeTab := activeTab st; progress := progress st;
     history := history st; progressInterval := v;
     localStorage := localStorage st |}.

Definition withLocalStorage (v : option jsstring) (st : AppState) : AppState :=
  {| mediaFile := mediaFile st; audioData := audioData st; isProcessing := isProcessing st;
     loadingMessage := loadingMessage st; studyMaterials := studyMaterials st;
     error := error st; activeTab := activeTab st; progress := progress st;
     history := history st; progressInterval := progressInterval st;
     localStorage := v |}.

Definition setMediaFile v : M unit := modify (withMediaFile v).
Definition setAudioData v : M unit := modify (withAudioData v).
Definition setIsProcessing v : M unit := modify (withIsProcessing v).
Definition setLoadingMessage v : M unit :=
  modify (withLoadingMessage v) ;; emit (SetLoadingMessage v).
Definition setStudyMaterials v : M unit := modify (withStudyMaterials v).
Definition setError v : M unit := modify (withError v).
Definition setActiveTab v : M unit := modify (withActiveTab v).
Definition setProgress v : M unit := modify (withProgress v).
Definition setHistory v : M unit := modify (withHistory v).

(** [clearInterval(progressIntervalRef.current)], guarded by the test that an
    interval was ever installed; clearing twice is harmless. *)
Definition clearProgressInterval : M unit := modify (withProgressInterval false).

(** [startProgressSimulation]: the previous interval is cleared and a new one
    installed, whose callback applies [Progress.progressTick] to [progress]
    every 400 ms. *)
Definition startProgressSimulation : M unit :=
  clearProgressInterval ;; modify (withProgressInterval true).

(** One firing of the interval. *)
Definition intervalFires (st : AppState) : AppState :=
  if progressInterval st then
    let st' := withProgress (Progress.progressTick (progress st)) st in
    if (99 <=? progress st)%float then withProgressInterval false st' else st'
  else st.

(** ** Texts of the source *)

Definition q (s : string) : jsstring := QUOTE :: lit s ++ [QUOTE].

Definition modelName : jsstring := lit "gemini-2.5-flash".

Definition apiKeyMissingMessage : jsstring :=
  lit "API_KEY environment variable is not set.".

Definition audioNotReadyMessage : jsstring :=
  lit "Audio data not ready. Please wait a moment after selecting a file or try re-selecting.".

Definition step1Message : jsstring := lit "Step 1/3: Transcribing audio...".

Definition step2Message : jsstring :=
  lit "Step 2/3: Analyzing transcript and generating study guide...".

Definition step3Message : jsstring :=
  lit "Step 3/3: Composing detailed lecture notes...".

Definition transcriptionPrompt : jsstring :=
  lit "Transcribe the provided audio lecture precisely into English. Return only the raw text of the English transcript, and nothing else.".

Definition emptyTranscriptMessage : jsstring :=
  lit "Transcription failed: The model returned an empty transcript. The audio might be silent or in an unsupported format.".

Definition malformedMessage : jsstring :=
  lit "Failed to process the study guide from the AI. The response was not in the expected JSON format. Please try again.".

Definition unknownErrorMessage : jsstring :=
  lit "An unknown error occurred. Please check the developer console for more details.".

Definition networkErrorMessage : jsstring :=
  lit "A network error occurred while communicating with the AI. Please check your internet connection.".

Definition unreadableFileMessage : jsstring :=
  lit "Could not read the file. Please try a different audio or video format.".

Definition fileErrorMessage : jsstring :=
  lit "Error reading file. It may be corrupted or in an unsupported format.".

Definition studyGuidePrompt (transcript : jsstring) : jsstring :=
  lit "Based on the following transcription of a lecture, generate a comprehensive study guide. The output must be a single, valid JSON object."
  ++ [LF; LF] ++ lit "The JSON object must contain these fields:"
  ++ [LF] ++ lit "1. " ++ q "summary" ++ lit ": A concise summary of the entire lecture."
  ++ [LF] ++ lit "2. " ++ q "keySections" ++ lit ": A bulleted list of the main topics discussed."
  ++ [LF] ++ lit "3. " ++ q "formulas"
  ++ lit ": A list of all formulas mentioned. If none, return an empty array."
  ++ [LF] ++ lit "4. " ++ q "glossary"
  ++ lit ": A list of key terms and their definitions. Each item should be an object with "
  ++ q "term" ++ lit " and " ++ q "definition"
  ++ lit " properties. If none, return an empty array."
  ++ [LF] ++ lit "5. " ++ q "examQuestions"
  ++ lit ": A list of 3-5 potential exam questions based on the content."
  ++ [LF; LF] ++ lit "Here is the transcript:" ++ [LF] ++ lit "---" ++ [LF]
  ++ transcript ++ [LF] ++ lit "---".

Definition detailedNotesPrompt (transcript : jsstring) : jsstring :=
  lit "Transform the following lecture transcript into a set of high-quality, detailed study notes. The notes should be well-structured, easy to read, and capture the essence of the lecture. Do not just reformat the transcript. Instead, synthesize the information, organize it logically under clear headings, and use bullet points to break down complex topics. Focus on key concepts, definitions, examples, and conclusions. The final output should be formatted in clean markdown."
  ++ [LF; LF] ++ lit "      Transcript:"
  ++ [LF] ++ lit "      ---"
  ++ [LF] ++ lit "      " ++ transcript
  ++ [LF] ++ lit "      ---".

(** The members [STRING], [ARRAY] and [OBJECT] of the enumeration [Type] of
    the client library are the strings of the same spelling. *)
Definition schemaOf (ty : string) (more : JSObject) : JSValue :=
  JObject ((lit "type", JString (lit ty)) :: more).

Definition stringArraySchema : JSValue :=
  schemaOf "ARRAY" [(lit "items", schemaOf "STRING" [])].

Definition names (l : list string) : JSValue :=
  JArray (map (fun s => JString (lit s)) l).

Definition studyGuideSchema : JSValue :=
  schemaOf "OBJECT"
    [(lit "properties",
      JObject
        [(lit "summary", schemaOf "STRING" []);
         (lit "keySections", stringArraySchema);
         (lit "formulas", stringArraySchema);
         (lit "glossary",
          schemaOf "ARRAY"
            [(lit "items",
              schemaOf "OBJECT"
                [(lit "properties",
                  JObject [(lit "term", schemaOf "STRING" []);
                           (lit "definition", schemaOf "STRING" [])]);
                 (lit "propertyOrdering", names ["term"; "definition"]%string)])]);
         (lit "examQuestions", stringArraySchema)]);
     (lit "propertyOrdering",
      names ["summary"; "keySections"; "formulas"; "glossary"; "examQuestions"]%string)].

Definition transcriptionRequest (audio : AudioData) : Request :=
  {| model := modelName;
     parts := [InlineData (data audio) (mimeType audio); Text transcriptionPrompt];
     config := None |}.

Definition studyGuideRequest (transcript : jsstring) : Request :=
  {| model := modelName;
     parts := [Text (studyGuidePrompt transcript)];
     config := Some {| responseMimeType := lit "application/json";
                       responseSchema := studyGuideSchema |} |}.

Definition detailedNotesRequest (transcript : jsstring) : Request :=
  {| model := modelName;
     parts := [Text (detailedNotesPrompt transcript)];
     config := None |}.

(** ** History and its persisted form *)

Definition decimalZ (z : Z) : jsstring :=
  lit (NilZero.string_of_int (Z.to_int z)).

Definition itemToJS (item : HistoryItem) : JSValue :=
  JObject [(lit "id", JNumber (decimalZ (id item)));
           (lit "filename", JString (filename item));
           (lit "materials", JObject (materials item))].

Definition historyToJS (h : list HistoryItem) : JSValue :=
  JArray (map itemToJS h).

Fixpoint digitsValue (acc : Z) (s : jsstring) : option Z :=
  match s with
  | [] => Some acc
  | c :: r =>
      if JSON.isDigit c then digitsValue (10 * acc + Z.of_N (c - 48)) r else None
  end.

(** The integer that a number literal without fraction or exponent denotes. *)
Definition integerOf (literal : jsstring) : option Z :=
  match literal with
  | [] => None
  | c :: r =>
      if (c =? 45)%N then
        match r with
        | [] => None
        | _ :: _ => option_map Z.opp (digitsValue 0 r)
        end
      else digitsValue 0 literal
  end.

Definition itemOfJS (v : JSValue) : option HistoryItem :=
  match v with
  | JObject props =>
      match objGet (lit "id") props, objGet (lit "filename") props,
            objGet (lit "materials") props, List.length props with
      | Some (JNumber n), Some (JString f), Some (JObject m), 3 =>
          option_map (fun i => {| id := i; filename := f; materials := m |}) (integerOf n)
      | _, _, _, _ => None
      end
  | _ => None
  end.

Fixpoint itemsOfJS (l : list JSValue) : option (list HistoryItem) :=
  match l with
  | [] => Some []
  | v :: r =>
      match itemOfJS v, itemsOfJS r with
      | Some item, Some items => Some (item :: items)
      | _, _ => None
      end
  end.

(** The parsed value read at the type [HistoryItem[]] of the state variable:
    an array of objects with an integer [id], a string [filename] and an
    object [materials].  [None]: the value is of another shape. *)
Definition historyOfJS (v : JSValue) : option (list HistoryItem) :=
  match v with
  | JArray elems => itemsOfJS elems
  | _ => None
  end.

(** What the effect that loads the history leaves: a state of the application,
    or a parsed value of another shape than [HistoryItem[]] in the state
    variable [history] (the source does not check the shape). *)
Inductive Loaded :=
| Loads (st : AppState)
| LoadsForeign (v : JSValue) (st : AppState).

(** ** The component [App] *)

Section App.

(** [JSON.parse], [None] standing for the [SyntaxError] it throws;
    [JSON.stringify]; and [process.env.API_KEY]. *)
Variable JSON_parse : jsstring -> option JSValue.
Variable JSON_stringify : JSValue -> jsstring.
Variable API_KEY : option jsstring.

Definition apiKeySet : bool :=
  match API_KEY with
  | Some k => truthy k
  | None => false
  end.

(** The effect that runs on the initial render. *)
Definition loadHistory (st : AppState) : Loaded :=
  match localStorage st with
  | Some savedHistory =>
      if truthy savedHistory then
        match JSON_parse savedHistory with
        | Some v =>
            match historyOfJS v with
            | Some h => Loads (withHistory h st)
            | None => LoadsForeign v st
            end
        | None => Loads (withLocalStorage None st)
        end
      else Loads st
  | None => Loads st
  end.

(** [localStorage.setItem('studyHistory', v)]; the write is taken to succeed. *)
Definition localStorage_setItem (v : jsstring) : M unit :=
  modify (withLocalStorage (Some v)).

(** [handleSaveToHistory] and [handleDeleteFromHistory] are closures over the
    [history] of the render that created them; [now] is [Date.now()]. *)
Definition handleSaveToHistory (history : list HistoryItem) (now : Z)
    (filename : jsstring) (materials : StudyMaterials) : M unit :=
  let newItem := {| id := now; filename := filename; materials := materials |} in
  let updatedHistory := newItem :: history in
  setHistory updatedHistory ;;
  localStorage_setItem (JSON_stringify (historyToJS updatedHistory)).

Definition handleDeleteFromHistory (history : list HistoryItem) (id' : Z) : M unit :=
  let updatedHistory := filter (fun item => negb (id item =? id')%Z) history in
  setHistory updatedHistory ;;
  localStorage_setItem (JSON_stringify (historyToJS updatedHistory)).

Definition handleViewFromHistory (item : HistoryItem) : M unit :=
  setStudyMaterials (Some (materials item)) ;;
  setMediaFile (Some {| name := filename item |}) ;;
  setActiveTab TabNotes.

(** [result.split(',', 2)]: the text before the first comma, and the text
    between the first comma and the second when there is a comma. *)
Fixpoint cutAtComma (s : jsstring) : jsstring * option jsstring :=
  match s with
  | [] => ([], None)
  | c :: r =>
      if (c =? 44)%N then ([], Some r)
      else let (h, t) := cutAtComma r in (c :: h, t)
  end.

Fixpoint untilSemicolon (s : jsstring) : option jsstring :=
  match s with
  | [] => None
  | c :: r =>
      if (c =? 59)%N then Some []
      else if isLineTerminator c then None
      else option_map (cons c) (untilSemicolon r)
  end.

(** The first group of the leftmost match of [/:(.*?);/]. *)
Fixpoint matchMimeType (s : jsstring) : option jsstring :=
  match s with
  | [] => None
  | c :: r =>
      if (c =? 58)%N then
        match untilSemicolon r with
        | Some m => Some m
        | None => matchMimeType r
        end
      else matchMimeType r
  end.

Definition processFile (file : option File) : M unit :=
  match file with
  | Some f =>
      setMediaFile (Some f) ;;
      setStudyMaterials None ;;
      setError None ;;
      setAudioData None ;;
      emit (ReadAsDataURL f)
  | None => ret tt
  end.

(** [reader.onloadend], with [reader.result]. *)
Definition onloadend (result : option jsstring) : M unit :=
  match result with
  | None => throw (ErrorObject (lit "Cannot read properties of null (reading 'split')"))
  | Some r =>
      let (header, rest) := cutAtComma r in
      let base64Data := option_map (fun t => fst (cutAtComma t)) rest in
      let mimeType := matchMimeType header in
      match base64Data, mimeType with
      | Some d, Some m =>
          if truthy d && truthy m then setAudioData (Some {| data := d; mimeType := m |})
          else setError (Some {| message := unreadableFileMessage; retryable := false |})
      | _, _ => setError (Some {| message := unreadableFileMessage; retryable := false |})
      end
  end.

Definition onerror : M unit :=
  setError (Some {| message := fileErrorMessage; retryable := false |}).

(** The text handed to [JSON.parse]: the trimmed response, without the fence
    when it starts with one. *)
Definition stripFence (responseText : jsstring) : jsstring :=
  let jsonText := trim responseText in
  if startsWith jsonText (lit "```json") then trim (slice jsonText 7 (-3))
  else if startsWith jsonText (lit "```") then trim (slice jsonText 3 (-3))
  else jsonText.

(** The body of the inner [try]: [text.trim()] throws a [TypeError] when the
    response has no text, [JSON.parse] a [SyntaxError]; the [catch] clause
    around it replaces either by its own error. *)
Definition parseStudyGuide (r : GenerateContentResponse) : M JSValue :=
  match text r with
  | None => throw (ErrorObject (lit "Cannot read properties of undefined (reading 'trim')"))
  | Some t =>
      match JSON_parse (stripFence t) with
      | Some v => ret v
      | None => throw (ErrorObject (lit "Unexpected token in JSON"))
      end
  end.

Definition generateContent (backend : Backend) (req : Request)
  : M GenerateContentResponse :=
  emit (GenerateContent req) ;;
  match backend req with
  | Resolved r => ret r
  | Rejected e => throw e
  end.

(** [await new Promise(resolve => setTimeout(resolve, 500))]. *)
Definition pause : M unit := ret tt.

Definition textOrUndefined (t : option jsstring) : JSValue :=
  match t with
  | Some s => JString s
  | None => JUndefined
  end.

(** [{...parsedStudyGuide, transcript, detailedNotes}]. *)
Definition finalMaterials (parsedStudyGuide : JSValue) (transcript : jsstring)
    (detailedNotes : option jsstring) : StudyMaterials :=
  objSet (lit "detailedNotes") (textOrUndefined detailedNotes)
    (objSet (lit "transcript") (JString transcript) (spread parsedStudyGuide)).

(** The [catch] clause of [handleGenerate]. *)
Definition classify (err : Thrown) : PipelineError :=
  match err with
  | ErrorObject m =>
      if includes m (lit "xhr error") || includes m (lit "500") then
        {| message := networkErrorMessage; retryable := true |}
      else if includes m (lit "Transcription failed") then
        {| message := m; retryable := false |}
      else {| message := m; retryable := true |}
  | NotAnError => {| message := unknownErrorMessage; retryable := true |}
  end.

(** The body of the [try] block of [handleGenerate]: the three stages, with
    the [audioData], [mediaFile] and [history] that the handler closed over. *)
Definition stages (backend : Backend) (now : Z) (audio : AudioData) (file : File)
    (history : list HistoryItem) : M unit :=
  setLoadingMessage step1Message ;;
  startProgressSimulation ;;
  transcriptionResult <- generateContent backend (transcriptionRequest audio) ;;
  clearProgressInterval ;;
  setProgress 100%float ;;
  match text transcriptionResult with
  | None => throw (ErrorObject emptyTranscriptMessage)
  | Some transcript =>
      if truthy (trim transcript) then
        pause ;;
        setLoadingMessage step2Message ;;
        setProgress 0%float ;;
        startProgressSimulation ;;
        studyGuideResult <- generateContent backend (studyGuideRequest transcript) ;;
        clearProgressInterval ;;
        setProgress 100%float ;;
        parsedStudyGuide <-
          tryCatch (parseStudyGuide studyGuideResult)
                   (fun _ => throw (ErrorObject malformedMessage)) ;;
        pause ;;
        setLoadingMessage step3Message ;;
        setProgress 0%float ;;
        startProgressSimulation ;;
        detailedNotesResult <- generateContent backend (detailedNotesRequest transcript) ;;
        clearProgressInterval ;;
        setProgress 100%float ;;
        let final := finalMaterials parsedStudyGuide transcript (text detailedNotesResult) in
        setStudyMaterials (Some final) ;;
        handleSaveToHistory history now (name file) final ;;
        setActiveTab TabNotes
      else throw (ErrorObject emptyTranscriptMessage)
  end.

(** [handleGenerate], in the render whose state is the one it starts from.
    The run is taken as a whole: no other handler acts between its awaits. *)
Definition handleGenerate (backend : Backend) (now : Z) : M unit :=
  fun w =>
    if negb apiKeySet then
      setError (Some {| message := apiKeyMissingMessage; retryable := false |}) w
    else
      match audioData (fst w), mediaFile (fst w) with
      | Some audio, Some file =>
          (setIsProcessing true ;;
           setError None ;;
           setStudyMaterials None ;;
           setProgress 0%float ;;
           clearProgressInterval ;;
           finally
             (tryCatch (stages backend now audio file (history (fst w)))
                       (fun err => setError (Some (classify err))))
             (clearProgressInterval ;;
              setIsProcessing false ;;
              setLoadingMessage [] ;;
              setProgress 0%float)) w
      | _, _ =>
          setError (Some {| message := audioNotReadyMessage; retryable := true |}) w
      end.

(** The handler behind the button of [ErrorDisplay], when there is one. *)
Definition onRetry (st : AppState) : option (Backend -> Z -> M unit) :=
  match error st with
  | Some e => if retryable e then Some handleGenerate else None
  | None => None
  end.

(** The state and the events that a handler leaves when it starts from [st]. *)
Definition run {A} (m : M A) (st : AppState) : Outcome A * World := m (st, []).

Definition stateAfter {A} (m : M A) (st : AppState) : AppState := fst (snd (run m st)).

Definition eventsOf {A} (m : M A) (st : AppState) : list Event := snd (snd (run m st)).

End App.

(** The requests among the events, in order. *)
Fixpoint requests (evs : list Event) : list Request :=
  match evs with
  | [] => []
  | GenerateContent req :: r => req :: requests r
  | _ :: r => requests r
  end.

Fixpoint fileReads (evs : list Event) : list File :=
  match evs with
  | [] => []
  | ReadAsDataURL f :: r => f :: fileReads r
  | _ :: r => fileReads r
  end.

Fixpoint banners (evs : list Event) : list jsstring :=
  match evs with
  | [] => []
  | SetLoadingMessage m :: r => m :: banners r
  | _ :: r => banners r
  end.

(** ** The components that display a result *)

(** [notes.split('\n')]: the texts between the line feeds, one more than
    there are line feeds. *)
Fixpoint splitLines (s : jsstring) : list jsstring :=
  match s with
  | [] => [[]]
  | c :: r =>
      if (c =? 10)%N then [] :: splitLines r
      else
        match splitLines r with
        | l :: ls => (c :: l) :: ls
        | [] => [[c]]
        end
  end.

(** The elements that [DetailedNotesDisplay] makes of the lines. *)
Inductive NoteElement :=
| H4 (content : jsstring)
| H3 (content : jsstring)
| H2 (content : jsstring)
| Li (content : jsstring)
| Br
| P (content : jsstring).

(** The callback of [map] in [DetailedNotesDisplay], without the key. *)
Definition formatLine (line : jsstring) : NoteElement :=
  let line := trim line in
  if startsWith line (lit "### ") then H4 (skipn 4 line)
  else if startsWith line (lit "## ") then H3 (skipn 3 line)
  else if startsWith line (lit "# ") then H2 (skipn 2 line)
  else if startsWith line (lit "* ") || startsWith line (lit "- ") then Li (skipn 2 line)
  else if eqs line [] then Br
  else P line.

Definition formattedNotes (notes : jsstring) : list NoteElement :=
  map formatLine (splitLines notes).

Definition typeError (what : string) : Thrown := ErrorObject (lit what).

(** [DetailedNotesDisplay] with the value it receives as [notes]: only a
    string has a method [split]. *)
Definition DetailedNotesDisplay (notes : JSValue) : Outcome (list NoteElement) :=
  match notes with
  | JString s => Ok (formattedNotes s)
  | JUndefined | JNull => Throw (typeError "Cannot read properties (reading 'split')")
  | _ => Throw (typeError "notes.split is not a function")
  end.

Definition andThen {A B} (o : Outcome A) (k : A -> Outcome B) : Outcome B :=
  match o with
  | Ok a => k a
  | Throw e => Throw e
  end.

(** The read [o.k] of a property of an object, [undefined] when absent. *)
Definition prop (o : JSObject) (k : string) : JSValue :=
  match objGet (lit k) o with
  | Some v => v
  | None => JUndefined
  end.

(** The read [v.k] on any value, for a key that no prototype defines: it
    throws on [null] and [undefined] and gives [undefined] on the values that
    are not objects. *)
Definition member (v : JSValue) (k : string) : Outcome JSValue :=
  match v with
  | JUndefined | JNull => Throw (typeError "Cannot read properties")
  | JObject props => Ok (prop props k)
  | _ => Ok JUndefined
  end.

Fixpoint mapItems {A} (f : JSValue -> Outcome A) (l : list JSValue) : Outcome (list A) :=
  match l with
  | [] => Ok []
  | v :: r =>
      andThen (f v) (fun a => andThen (mapItems f r) (fun rest => Ok (a :: rest)))
  end.

(** [v.map(f)]: among the values of JSON only an array has a method [map]. *)
Definition arrayMap {A} (v : JSValue) (f : JSValue -> Outcome A) : Outcome (list A) :=
  match v with
  | JArray elems => mapItems f elems
  | JUndefined | JNull => Throw (typeError "Cannot read properties (reading 'map')")
  | _ => Throw (typeError "map is not a function")
  end.

(** What [StudyNotes] hands to the renderer: the summary, the items of the
    three lists and, for each glossary item, its term and its definition. *)
Record StudyNotesView := {
  shownSummary : JSValue;
  shownKeySections : list JSValue;
  shownFormulas : list JSValue;
  shownGlossary : list (JSValue * JSValue);
  shownExamQuestions : list JSValue
}.

(** The body of [StudyNotes], up to the elements it returns. *)
Definition StudyNotes (materials : StudyMaterials) : Outcome StudyNotesView :=
  andThen (arrayMap (prop materials "keySections") Ok) (fun ks =>
  andThen (arrayMap (prop materials "formulas") Ok) (fun fs =>
  andThen (arrayMap (prop materials "glossary")
             (fun item =>
                andThen (member item "term") (fun t =>
                andThen (member item "definition") (fun d => Ok (t, d))))) (fun gl =>
  andThen (arrayMap (prop materials "examQuestions") Ok) (fun qs =>
  Ok {| shownSummary := prop materials "summary";
        shownKeySections := ks;
        shownFormulas := fs;
        shownGlossary := gl;
        shownExamQuestions := qs |})))).

Inductive TabView :=
| NotesPanel (v : StudyNotesView)
| DetailedPanel (elements : list NoteElement)
| TranscriptPanel (transcript : JSValue).

(** The panel of the results section of [App]: none without a record,
    otherwise the component of the active tab applied to the record. *)
Definition resultsPanel (st : AppState) : option (Outcome TabView) :=
  match studyMaterials st with
  | None => None
  | Some m =>
      Some
        match activeTab st with
        | TabNotes => andThen (StudyNotes m) (fun v => Ok (NotesPanel v))
        | TabDetailed =>
            andThen (DetailedNotesDisplay (prop m "detailedNotes"))
                    (fun els => Ok (DetailedPanel els))
        | TabTranscript => Ok (TranscriptPanel (prop m "transcript"))
        end
  end.

(** The attribute [disabled] of the button that starts a run. *)
Definition generateDisabled (st : AppState) : bool :=
  match mediaFile st, audioData st with
  | Some _, Some _ => isProcessing st
  | _, _ => true
  end.

(** ** The name of the exported file *)

Definition isLowerLetter (c : char16) : bool := ((97 <=? c) && (c <=? 122))%N.
Definition isUpperLetter (c : char16) : bool := ((65 <=? c) && (c <=? 90))%N.

(** The code units that [/[^a-z0-9.]/gi] does not match: the letters of both
    cases, the digits and the point (without the flag [u], no code unit from
    128 on is taken for a letter below 128). *)
Definition keptInName (c : char16) : bool :=
  isLowerLetter c || isUpperLetter c || JSON.isDigit c || (c =? 46)%N.

(** [name.replace(/[^a-z0-9.]/gi, '_')]. *)
Definition replaceUnsafe (name : jsstring) : jsstring :=
  map (fun c => if keptInName c then c else 95%N) name.

(** [toLowerCase] on the code units below 128, where it lowers the letters
    [A] to [Z] and nothing else; [handleDownload] applies it to the result of
    [replaceUnsafe], which holds such code units only. *)
Definition toLowerCase (s : jsstring) : jsstring :=
  map (fun c => if isUpperLetter c then (c + 32)%N else c) s.

Definition safeFilename (name : jsstring) : jsstring :=
  toLowerCase (replaceUnsafe name).

Definition sectionName (section : Tab) : jsstring :=
  match section with
  | TabNotes => lit "notes"
  | TabDetailed => lit "detailed"
  | TabTranscript => lit "transcript"
  end.

(** The [title] that the [switch] of [handleDownload] chooses. *)
Definition sectionTitle (section : Tab) : jsstring :=
  match section with
  | TabNotes => lit "Study Notes"
  | TabDetailed => lit "Detailed Notes"
  | TabTranscript => lit "Transcript"
  end.

(** The argument of [pdf.save]. *)
Definition pdfFileName (section : Tab) (file : File) : jsstring :=
  sectionName section ++ lit "-guide-" ++ safeFilename (name file) ++ lit ".pdf".

(** ** A store that may refuse a write *)

(** [localStorage.setItem] throws when the store does not take the value: a
    [QuotaExceededError] when the quota of the origin is exceeded.  The
    handlers that reach the write are given here over a store that may
    refuse; with a store that never refuses they are the handlers of [App]
    above. *)
Module Quota.
Section Refusing.

Variable JSON_parse : jsstring -> option JSValue.
Variable JSON_stringify : JSValue -> jsstring.
Variable API_KEY : option jsstring.

(** What [setItem] throws for a value, [None] when the store takes it. *)
Variable refusal : jsstring -> option Thrown.

Definition localStorage_setItem (v : jsstring) : M unit :=
  match refusal v with
  | None => modify (withLocalStorage (Some v))
  | Some e => throw e
  end.

Definition handleSaveToHistory (history : list HistoryItem) (now : Z)
    (filename : jsstring) (materials : StudyMaterials) : M unit :=
  let newItem := {| id := now; filename := filename; materials := materials |} in
  let updatedHistory := newItem :: history in
  setHistory updatedHistory ;;
  localStorage_setItem (JSON_stringify (historyToJS updatedHistory)).

Definition stages (backend : Backend) (now : Z) (audio : AudioData) (file : File)
    (history : list HistoryItem) : M unit :=
  setLoadingMessage step1Message ;;
  startProgressSimulation ;;
  transcriptionResult <- generateContent backend (transcriptionRequest audio) ;;
  clearProgressInterval ;;
  setProgress 100%float ;;
  match text transcriptionResult with
  | None => throw (ErrorObject emptyTranscriptMessage)
  | Some transcript =>
      if truthy (trim transcript) then
        pause ;;
        setLoadingMessage step2Message ;;
        setProgress 0%float ;;
        startProgressSimulation ;;
        studyGuideResult <- generateContent backend (studyGuideRequest transcript) ;;
        clearProgressInterval ;;
        setProgress 100%float ;;
        parsedStudyGuide <-
          tryCatch (parseStudyGuide JSON_parse studyGuideResult)
                   (fun _ => throw (ErrorObject malformedMessage)) ;;
        pause ;;
        setLoadingMessage step3Message ;;
        setProgress 0%float ;;
        startProgressSimulation ;;
        detailedNotesResult <- generateContent backend (detailedNotesRequest transcript) ;;
        clearProgressInterval ;;
        setProgress 100%float ;;
        let final := finalMaterials parsedStudyGuide transcript (text detailedNotesResult) in
        setStudyMaterials (Some final) ;;
        handleSaveToHistory history now (name file) final ;;
        setActiveTab TabNotes
      else throw (ErrorObject emptyTranscriptMessage)
  end.

Definition handleGenerate (backend : Backend) (now : Z) : M unit :=
  fun w =>
    if negb (apiKeySet API_KEY) then
      setError (Some {| message := apiKeyMissingMessage; retryable := false |}) w
    else
      match audioData (fst w), mediaFile (fst w) with
      | Some audio, Some file =>
          (setIsProcessing true ;;
           setError None ;;
           setStudyMaterials None ;;
           setProgress 0%float ;;
           clearProgressInterval ;;
           finally
             (tryCatch (stages backend now audio file (history (fst w)))
                       (fun err => setError (Some (classify err))))
             (clearProgressInterval ;;
              setIsProcessing false ;;
              setLoadingMessage [] ;;
              setProgress 0%float)) w
      | _, _ =>
          setError (Some {| message := audioNotReadyMessage; retryable := true |}) w
      end.

End Refusing.
End Quota.

(** ** Notions used in the statements *)

(** [Omits i h r]: [r] is [h] without the entries whose id is [i], the others
    in the order they have in [h]. *)
Inductive Omits (i : Z) : list HistoryItem -> list HistoryItem -> Prop :=
| Omits_nil : Omits i [] []
| Omits_drop x h r : id x = i -> Omits i h r -> Omits i (x :: h) r
| Omits_keep x h r : id x <> i -> Omits i h r -> Omits i (x :: h) (x :: r).

Definition fence : jsstring := lit "```".

(** A payload between an opening fence with its tag and a closing fence,
    with white space [w1] and [w2] around the payload. *)
Definition fenced (tag w1 payload w2 : jsstring) : jsstring :=
  fence ++ tag ++ (w1 ++ payload ++ w2) ++ fence.

(** The response holds no text, or white space only. *)
Definition blank (r : GenerateContentResponse) : bool :=
  match text r with
  | None => true
  | Some t => forallb isWhiteSpace t
  end.

Definition lastRequest (evs : list Event) : option Request :=
  last (map Some (requests evs)) None.

Definition enters1 (audio : AudioData) : list Event :=
  [SetLoadingMessage step1Message; GenerateContent (transcriptionRequest audio)].

Definition enters2 (transcript : jsstring) : list Event :=
  [SetLoadingMessage step2Message; GenerateContent (studyGuideRequest transcript)].

Definition enters3 (transcript : jsstring) : list Event :=
  [SetLoadingMessage step3Message; GenerateContent (detailedNotesRequest transcript)].

(** The state in which [handleGenerate] leaves a run that failed with [e]. *)
Definition failedState (e : PipelineError) (st : AppState) : AppState :=
  {| mediaFile := mediaFile st; audioData := audioData st; isProcessing := false;
     loadingMessage := []; studyMaterials := None; error := Some e;
     activeTab := activeTab st; progress := 0%float; history := history st;
     progressInterval := false; localStorage := localStorage st |}.

Section Notions.

Variable JSON_parse : jsstring -> option JSValue.
Variable JSON_stringify : JSValue -> jsstring.
Variable API_KEY : option jsstring.

Definition generate : Backend -> Z -> M unit :=
  handleGenerate JSON_parse JSON_stringify API_KEY.

(** What [parseStudyGuide] obtains from a response, [None] when it throws. *)
Definition parsedGuide (r : GenerateContentResponse) : option JSValue :=
  match text r with
  | None => None
  | Some t => JSON_parse (stripFence t)
  end.

(** The state in which [handleGenerate] leaves a run that completed with the
    record [m], saved at the time [now] under the name of [file]. *)
Definition completedState (m : StudyMaterials) (now : Z) (file : File) (st : AppState)
  : AppState :=
  let saved := {| id := now; filename := name file; materials := m |} :: history st in
  {| mediaFile := mediaFile st; audioData := audioData st; isProcessing := false;
     loadingMessage := []; studyMaterials := Some m; error := None;
     activeTab := TabNotes; progress := 0%float; history := saved;
     progressInterval := false;
     localStorage := Some (JSON_stringify (historyToJS saved)) |}.

(** How the three stages go against a backend: the events up to the last
    call, and either the thrown value or the transcript, the parsed study
    guide and the text of the notes. *)
Inductive Attempt (backend : Backend) (audio : AudioData)
  : list Event -> Thrown + (jsstring * JSValue * option jsstring) -> Prop :=
| Attempt_rejected1 e :
    backend (transcriptionRequest audio) = Rejected e ->
    Attempt backend audio (enters1 audio) (inl e)
| Attempt_blank r :
    backend (transcriptionRequest audio) = Resolved r ->
    blank r = true ->
    Attempt backend audio (enters1 audio) (inl (ErrorObject emptyTranscriptMessage))
| Attempt_rejected2 r t e :
    backend (transcriptionRequest audio) = Resolved r ->
    text r = Some t -> blank r = false ->
    backend (studyGuideRequest t) = Rejected e ->
    Attempt backend audio (enters1 audio ++ enters2 t) (inl e)
| Attempt_malformed r t r2 :
    backend (transcriptionRequest audio) = Resolved r ->
    text r = Some t -> blank r = false ->
    backend (studyGuideRequest t) = Resolved r2 ->
    parsedGuide r2 = None ->
    Attempt backend audio (enters1 audio ++ enters2 t)
            (inl (ErrorObject malformedMessage))
| Attempt_rejected3 r t r2 v e :
    backend (transcriptionRequest audio) = Resolved r ->
    text r = Some t -> blank r = false ->
    backend (studyGuideRequest t) = Resolved r2 ->
    parsedGuide r2 = Some v ->
    backend (detailedNotesRequest t) = Rejected e ->
    Attempt backend audio (enters1 audio ++ enters2 t ++ enters3 t) (inl e)
| Attempt_completed r t r2 v r3 :
    backend (transcriptionRequest audio) = Resolved r ->
    text r = Some t -> blank r = false ->
    backend (studyGuideRequest t) = Resolved r2 ->
    parsedGuide r2 = Some v ->
    backend (detailedNotesRequest t) = Resolved r3 ->
    Attempt backend audio (enters1 audio ++ enters2 t ++ enters3 t)
            (inr (t, v, text r3)).

Definition endState (now : Z) (file : File) (st : AppState)
    (res : Thrown + (jsstring * JSValue * option jsstring)) : AppState :=
  match res with
  | inl e => failedState (classify e) st
  | inr (t, v, notes) => completedState (finalMaterials v t notes) now file st
  end.

(** The state after a click on the button that deletes the entry [i]. *)
Definition afterDelete (i : Z) (st : AppState) : AppState :=
  stateAfter (handleDeleteFromHistory JSON_stringify (history st) i) st.

(** The state after a result is saved at the time [now]. *)
Definition afterSave (now : Z) (f : jsstring) (m : StudyMaterials) (st : AppState)
  : AppState :=
  stateAfter (handleSaveToHistory JSON_stringify (history st) now f m) st.

End Notions.

(** ** Concrete inputs *)

Definition entry (i : Z) (f : string) : HistoryItem :=
  {| id := i; filename := lit f; materials := [] |}.

Definition threeEntries : AppState :=
  withHistory [entry 5 "a.mp3"; entry 7 "b.mp3"; entry 5 "c.mp3"] (initialState None).

Definition demoAudio : AudioData :=
  {| data := lit "UklGRiQAAABXQVZF"; mimeType := lit "audio/wav" |}.

Definition demoFile : File := {| name := lit "lecture.wav" |}.

Definition demoKey : option jsstring := Some (lit "key").

(** The media is encoded and nothing is displayed. *)
Definition readyState : AppState :=
  withAudioData (Some demoAudio) (withMediaFile (Some demoFile) (initialState None)).

(** A backend that gives the three stages the answers [a1], [a2] and [a3]. *)
Definition answers (a1 a2 a3 : Settled) : Backend :=
  fun req =>
    match config req, parts req with
    | Some _, _ => a2
    | None, InlineData _ _ :: _ => a1
    | None, _ => a3
    end.

Definition says (s : jsstring) : Settled := Resolved {| text := Some s |}.

Definition demoRun (backend : Backend) (st : AppState) : AppState :=
  stateAfter (generate JSON.parse JSONText.stringify demoKey backend 1700000000000) st.

Definition demoEvents (backend : Backend) (st : AppState) : list Event :=
  eventsOf (generate JSON.parse JSONText.stringify demoKey backend 1700000000000) st.

Definition silent : Backend :=
  answers (says (lit "   ")) (says (lit "{}")) (says (lit "# Notes")).

Definition formulaGuide : jsstring :=
  lit "{" ++ q "summary" ++ lit ":" ++ q "Force and mass" ++ lit ","
  ++ q "keySections" ++ lit ":[" ++ q "Dynamics" ++ lit "],"
  ++ q "formulas" ++ lit ":[" ++ q "F = m*a" ++ lit "],"
  ++ q "glossary" ++ lit ":[],"
  ++ q "examQuestions" ++ lit ":[" ++ q "State the second law." ++ lit "]}".

Definition newton : jsstring := lit "Newton's second law: F = m*a.".

(** The answer of stage 2 has a comma before the closing bracket. *)
Definition garbled : Backend :=
  answers (says newton) (says (lit "{" ++ q "formulas" ++ lit ":[1,]}")) (says (lit "# Notes")).

(** A record is displayed and the media is encoded. *)
Definition earlierRecord : StudyMaterials :=
  [(lit "summary", JString (lit "An earlier lecture"));
   (lit "transcript", JString (lit "An earlier transcript"));
   (lit "detailedNotes", JString (lit "Earlier notes"))].

Definition shownState : AppState := withStudyMaterials (Some earlierRecord) readyState.

Definition offline : Backend :=
  answers (Rejected (ErrorObject (lit "xhr error"))) (says (lit "{}")) (says (lit "# Notes")).

(** The backend answers stage 2 with the empty object. *)
Definition terse : Backend :=
  answers (says newton) (says (lit "{}")) (says (lit "# Notes")).

Definition terseRecord : StudyMaterials :=
  [(lit "transcript", JString newton); (lit "detailedNotes", JString (lit "# Notes"))].

Definition helpful : Backend :=
  answers (says newton) (says (fenced (lit "json") [LF] formulaGuide [LF]))
          (says (lit "# Notes")).

(** ** Notions used in the further statements *)

(** The text that [FileReader.readAsDataURL] yields for a file of the media
    type [mime] whose Base64 encoding is [payload]. *)
Definition dataURL (mime payload : jsstring) : jsstring :=
  lit "data:" ++ mime ++ lit ";base64," ++ payload.

(** A code unit that is no comma, no semicolon and no line terminator. *)
Definition plainUnit (c : char16) : bool :=
  negb (mem16 c [44; 59]%N || isLineTerminator c).

Definition noComma (c : char16) : bool := negb (c =? 44)%N.

(** The state after [n] firings of the interval. *)
Fixpoint fires (n : nat) (st : AppState) : AppState :=
  match n with
  | O => st
  | S k => intervalFires (fires k st)
  end.

Definition below99 (p : float) : bool := negb (99 <=? p)%float && (p <? 99)%float.

(** The entries are in the order of their ids, the greatest first. *)
Definition newestFirst (h : list HistoryItem) : Prop :=
  StronglySorted (fun a b => (id b < id a)%Z) h.

Definition isArray (v : JSValue) : bool :=
  match v with
  | JArray _ => true
  | _ => false
  end.

Definition nullish (v : JSValue) : bool :=
  match v with
  | JUndefined | JNull => true
  | _ => false
  end.

(** An array none of whose items is [null]. *)
Definition isArrayOfReadable (v : JSValue) : bool :=
  match v with
  | JArray elems => forallb (fun item => negb (nullish item)) elems
  | _ => false
  end.

(** The four lists that [StudyNotes] maps over are there. *)
Definition listsReadable (m : JSObject) : bool :=
  isArray (prop m "keySections") && isArray (prop m "formulas")
  && isArrayOfReadable (prop m "glossary") && isArray (prop m "examQuestions").

Definition isString (v : JSValue) : bool :=
  match v with
  | JString _ => true
  | _ => false
  end.

Definition isArrayOf (p : JSValue -> bool) (v : JSValue) : bool :=
  match v with
  | JArray elems => forallb p elems
  | _ => false
  end.

(** An object whose [term] and [definition] are strings. *)
Definition isGlossaryEntry (v : JSValue) : bool :=
  match v with
  | JObject o => isString (prop o "term") && isString (prop o "definition")
  | _ => false
  end.

(** The record has the types that [studyGuideSchema] asks of the answer of
    stage 2: a string for the summary, arrays of strings for the three lists
    and an array of entries for the glossary. *)
Definition typedAsSchema (m : JSObject) : bool :=
  isString (prop m "summary")
  && isArrayOf isString (prop m "keySections")
  && isArrayOf isString (prop m "formulas")
  && isArrayOf isGlossaryEntry (prop m "glossary")
  && isArrayOf isString (prop m "examQuestions").

(** Every value that [StudyNotes] places in an element is a string. *)
Definition childrenAreStrings (v : StudyNotesView) : bool :=
  isString (shownSummary v)
  && forallb isString (shownKeySections v)
  && forallb isString (shownFormulas v)
  && forallb (fun p => isString (fst p) && isString (snd p)) (shownGlossary v)
  && forallb isString (shownExamQuestions v).

(** The callback that [StudyNotes] maps over the glossary. *)
Definition glossaryItem (item : JSValue) : Outcome (JSValue * JSValue) :=
  andThen (member item "term") (fun t =>
  andThen (member item "definition") (fun d => Ok (t, d))).

(** The lines put together again, a line feed between two of them. *)
Fixpoint joinLines (ls : list jsstring) : jsstring :=
  match ls with
  | [] => []
  | [l] => l
  | l :: rest => l ++ LF :: joinLines rest
  end.

(** The marker that an element stands for. *)
Definition markerOf (e : NoteElement) (line : jsstring) : jsstring :=
  match e with
  | H4 _ => lit "### "
  | H3 _ => lit "## "
  | H2 _ => lit "# "
  | Li _ => firstn 2 line
  | Br | P _ => []
  end.

Definition contentOf (e : NoteElement) : jsstring :=
  match e with
  | H4 s | H3 s | H2 s | Li s | P s => s
  | Br => []
  end.

(** A lower-case letter, a digit, a point, an underscore or a hyphen. *)
Definition nameUnit (c : char16) : bool :=
  isLowerLetter c || JSON.isDigit c || mem16 c [46; 95; 45]%N.

(** What [safeFilename] makes of one code unit. *)
Definition safeUnit (c : char16) : char16 :=
  let kept := if keptInName c then c else 95%N in
  if isUpperLetter kept then (kept + 32)%N else kept.

(** The entries of the history once the record [m] is saved at the time
    [now] under the name of [file]. *)
Definition savedHistory (m : StudyMaterials) (now : Z) (file : File) (st : AppState)
  : list HistoryItem :=
  {| id := now; filename := name file; materials := m |} :: history st.

(** The state in which [handleGenerate] leaves a run whose three stages went
    well and whose write to the store was refused: the error [e], the record
    [m] on display and in the history, and the store as it was. *)
Definition unsavedState (e : PipelineError) (m : StudyMaterials) (now : Z) (file : File)
    (st : AppState) : AppState :=
  {| mediaFile := mediaFile st; audioData := audioData st; isProcessing := false;
     loadingMessage := []; studyMaterials := Some m; error := Some e;
     activeTab := activeTab st; progress := 0%float;
     history := savedHistory m now file st;
     progressInterval := false; localStorage := localStorage st |}.

(** ** Further concrete inputs *)

Definition wavURL : jsstring := dataURL (lit "audio/wav") (lit "UklGRiQAAABXQVZF").

Definition sparse : Backend :=
  answers (says newton) (says formulaGuide) (Resolved {| text := None |}).

Definition savedEntry : HistoryItem :=
  {| id := 1690000000000; filename := lit "older.mp3"; materials := earlierRecord |}.

Definition twoEntries : AppState :=
  withHistory [entry 7 "b.mp3"; entry 5 "a.mp3"] (initialState None).

(** The record that a run assembles from the guide [formulaGuide]. *)
Definition guideRecord : StudyMaterials :=
  match JSON.parse formulaGuide with
  | Some v => finalMaterials v newton (Some (lit "# Notes"))
  | None => []
  end.

(** A store whose quota is exceeded by any value. *)
Definition fullStore : jsstring -> option Thrown :=
  fun _ => Some (ErrorObject (lit "The quota has been exceeded.")).

Definition ticking : AppState := withProgressInterval true (initialState None).

(** * Properties *)

(** ** Strings *)

Section StringFacts.

Lemma startsWith_app (p s : jsstring) : startsWith (p ++ s) p = true.
Proof.
  induction p as [|c p IH]; simpl; [reflexivity|].
  now rewrite N.eqb_refl.
Qed.

Lemma startsWith_cancel (a s t : jsstring) :
  startsWith (a ++ s) (a ++ t) = startsWith s t.
Proof.
  induction a as [|c a IH]; simpl; [reflexivity|].
  now rewrite N.eqb_refl.
Qed.

Lemma startsWith_shorter (s a b : jsstring) :
  startsWith s (a ++ b) = true -> startsWith s a = true.
Proof.
  revert s; induction a as [|c a IH]; intros s H; simpl in *; [reflexivity|].
  destruct s as [|d s]; [discriminate|].
  apply andb_true_iff in H as [H1 H2].
  rewrite H1; simpl; auto.
Qed.

Lemma trimStart_blank (w s : jsstring) :
  forallb isWhiteSpace w = true -> trimStart (w ++ s) = trimStart s.
Proof.
  induction w as [|c w IH]; simpl; intros H; [reflexivity|].
  apply andb_true_iff in H as [Hc Hw].
  rewrite Hc; auto.
Qed.

Lemma trimStart_all_blank (w : jsstring) :
  forallb isWhiteSpace w = true -> trimStart w = [].
Proof.
  intros H. rewrite <- (app_nil_r w). now rewrite trimStart_blank.
Qed.

Lemma trimStart_nil_blank (s : jsstring) :
  trimStart s = [] -> forallb isWhiteSpace s = true.
Proof.
  induction s as [|c s IH]; simpl; [reflexivity|].
  destruct (isWhiteSpace c); simpl; [exact IH | discriminate].
Qed.

Lemma trimStart_keeps (s w : jsstring) :
  trimStart s <> [] -> trimStart (s ++ w) = trimStart s ++ w.
Proof.
  induction s as [|c s IH]; simpl; intros H; [congruence|].
  destruct (isWhiteSpace c); auto.
Qed.

Lemma forallb_rev (f : char16 -> bool) (l : jsstring) :
  forallb f (rev l) = forallb f l.
Proof.
  induction l as [|c l IH]; simpl; [reflexivity|].
  rewrite forallb_app, IH; simpl.
  rewrite andb_true_r. apply andb_comm.
Qed.

Lemma trimEnd_blank (s w : jsstring) :
  forallb isWhiteSpace w = true -> trimEnd (s ++ w) = trimEnd s.
Proof.
  intros H. unfold trimEnd.
  rewrite rev_app_distr, trimStart_blank; [reflexivity|].
  now rewrite forallb_rev.
Qed.

Lemma trimEnd_nil : trimEnd [] = [].
Proof. reflexivity. Qed.

(** Surrounding white space does not change what [trim] returns. *)
Lemma trim_padding (w1 s w2 : jsstring) :
  forallb isWhiteSpace w1 = true -> forallb isWhiteSpace w2 = true ->
  trim (w1 ++ s ++ w2) = trim s.
Proof.
  intros H1 H2. unfold trim.
  rewrite trimStart_blank by assumption.
  destruct (trimStart s) as [|c r] eqn:E.
  - apply trimStart_nil_blank in E.
    rewrite trimStart_blank by assumption.
    now rewrite (trimStart_all_blank _ H2).
  - rewrite trimStart_keeps by congruence.
    rewrite E. now apply trimEnd_blank.
Qed.

Lemma trimStart_head (s r : jsstring) (c : char16) :
  trimStart s = c :: r -> isWhiteSpace c = false.
Proof.
  induction s as [|d s IH]; simpl; [discriminate|].
  destruct (isWhiteSpace d) eqn:Ed; [exact IH|].
  intros E; inversion E; subst; exact Ed.
Qed.

(** [trim s] is empty exactly when [s] holds white space only. *)
Lemma trim_blank_iff (s : jsstring) :
  truthy (trim s) = false <-> forallb isWhiteSpace s = true.
Proof.
  split.
  - intros H. unfold trim, trimEnd in H.
    assert (E : rev (trimStart (rev (trimStart s))) = [])
      by (destruct (rev _); [reflexivity | discriminate]).
    apply (f_equal (@rev _)) in E. rewrite rev_involutive in E. simpl in E.
    apply trimStart_nil_blank in E. rewrite forallb_rev in E.
    destruct (trimStart s) as [|c r] eqn:Et; [now apply trimStart_nil_blank|].
    apply trimStart_head in Et. simpl in E. rewrite Et in E. discriminate.
  - intros H. unfold trim. now rewrite (trimStart_all_blank _ H).
Qed.

(** A text that begins and ends with a code unit that is not white space is
    its own [trim]. *)
Lemma trim_fixed (c d : char16) (s : jsstring) :
  isWhiteSpace c = false -> isWhiteSpace d = false ->
  trim (c :: s ++ [d]) = c :: s ++ [d].
Proof.
  intros Hc Hd. unfold trim.
  assert (E1 : trimStart (c :: s ++ [d]) = c :: s ++ [d])
    by (cbn [trimStart]; now rewrite Hc).
  assert (E2 : rev (c :: s ++ [d]) = d :: rev (c :: s)).
  { change (c :: s ++ [d]) with ((c :: s) ++ [d]).
    rewrite rev_app_distr. reflexivity. }
  assert (E3 : trimStart (d :: rev (c :: s)) = d :: rev (c :: s))
    by (cbn [trimStart]; now rewrite Hd).
  rewrite E1. unfold trimEnd. rewrite E2, E3, <- E2.
  apply rev_involutive.
Qed.

(** [slice] with the lengths of a prefix and of a suffix returns what lies
    between them. *)
Lemma slice_between (a b c : jsstring) :
  c <> [] ->
  slice (a ++ b ++ c) (Z.of_nat (List.length a)) (- Z.of_nat (List.length c)) = b.
Proof.
  intros Hc. unfold slice.
  assert (0 < List.length c) by (destruct c; simpl; [congruence | lia]).
  rewrite !length_app.
  destruct (Z.ltb_spec (Z.of_nat (List.length a)) 0); [lia|].
  destruct (Z.ltb_spec (- Z.of_nat (List.length c)) 0); [|lia].
  rewrite Z.min_l by lia. rewrite Z.max_l by lia.
  rewrite Nat2Z.id.
  replace (Z.to_nat _) with (List.length b) by lia.
  rewrite skipn_app, skipn_all, Nat.sub_diag. simpl.
  rewrite firstn_app, firstn_all, Nat.sub_diag. simpl.
  apply app_nil_r.
Qed.

End StringFacts.

(** ** The progress indicator *)

Module ProgressFacts.
Import Progress ProgressRuns.

Lemma ticks_add (n m : nat) (p : float) : ticks (n + m) p = ticks m (ticks n p).
Proof.
  revert p; induction n as [|n IH]; intros p; simpl; [reflexivity | apply IH].
Qed.

Lemma ticks_fixed (n : nat) (p : float) : progressTick p = p -> ticks n p = p.
Proof.
  intros H. induction n as [|n IH]; simpl; [reflexivity|]. now rewrite H.
Qed.

Lemma along_sound (P : float -> bool) (k : nat) :
  forall p, along P k p = true -> forall n, n < k -> P (ticks n p) = true.
Proof.
  induction k as [|k IH]; intros p H n Hn; [lia|].
  simpl in H. apply andb_true_iff in H as [Hp Hk].
  destruct n as [|n]; simpl; [exact Hp|].
  apply IH; [exact Hk | lia].
Qed.

Lemma first_ticks_rise : along rises lastRise 0%float = true.
Proof. vm_compute. reflexivity. Qed.

Lemma ticks_reach_rest : ticks lastRise 0%float = restingValue.
Proof. vm_compute. reflexivity. Qed.

Lemma rest_is_fixed : progressTick restingValue = restingValue.
Proof. vm_compute. reflexivity. Qed.

Lemma ticks_rest (n : nat) : lastRise <= n -> ticks n 0%float = restingValue.
Proof.
  intros H. replace n with (lastRise + (n - lastRise)) by lia.
  rewrite ticks_add, ticks_reach_rest. apply ticks_fixed, rest_is_fixed.
Qed.

(** C7 (refuted as stated): the value reached after 664 ticks from 0 lies in
    the interval from 0 to 99, 99 excluded, and one more tick returns the same
    value: the update does not strictly increase it. *)
Lemma progress_tick_stalls :
  restingValue = ticks 664 0%float /\
  (0 <=? restingValue)%float = true /\ (restingValue <? 99)%float = true /\
  progressTick restingValue = restingValue /\
  (restingValue <? progressTick restingValue)%float = false.
Proof. vm_compute. repeat split; reflexivity. Qed.

(** C7 (amended): while a call is outstanding the indicator starts from 0 and
    each tick leaves it at or above its value and strictly below 99; each of
    the first 664 ticks strictly increases it, every later tick leaves it
    where it is; a value at or above 99 is mapped to 99. *)
Theorem progress_ticks_from_zero (n : nat) :
  let p := ticks n 0%float in
  (p <=? progressTick p)%float = true /\
  (progressTick p <? 99)%float = true /\
  (n < 664 -> (p <? progressTick p)%float = true) /\
  (664 <= n -> progressTick p = p) /\
  (forall prev, (99 <=? prev)%float = true -> progressTick prev = 99%float).
Proof.
  intros p. subst p.
  assert (Hlate : 664 <= n -> ticks n 0%float = restingValue) by apply ticks_rest.
  assert (Hearly : n < 664 -> rises (ticks n 0%float) = true)
    by (apply (along_sound rises lastRise), first_ticks_rise).
  destruct (Nat.lt_ge_cases n 664) as [Hn | Hn].
  - specialize (Hearly Hn). unfold rises in Hearly.
    apply andb_true_iff in Hearly as [H12 H3].
    apply andb_true_iff in H12 as [H1 H2].
    repeat split; auto; try lia.
    intros prev Hp. unfold progressTick. now rewrite Hp.
  - rewrite (Hlate Hn).
    repeat split; try (vm_compute; reflexivity); try lia.
    intros prev Hp. unfold progressTick. now rewrite Hp.
Qed.

Lemma progress_ticks_from_zero_witness :
  (ticks 3 0%float <? progressTick (ticks 3 0%float))%float = true /\
  progressTick (ticks 700 0%float) = ticks 700 0%float /\
  progressTick 120%float = 99%float.
Proof.
  destruct (progress_ticks_from_zero 3) as (_ & _ & Hrise & _ & Hcap).
  destruct (progress_ticks_from_zero 700) as (_ & _ & _ & Hrest & _).
  split; [apply Hrise; lia|].
  split; [apply Hrest; lia|].
  apply Hcap. vm_compute. reflexivity.
Defined.

End ProgressFacts.

(** ** The history list *)

Section HistoryFacts.

Variable JSON_stringify : JSValue -> jsstring.

#[local] Abbreviation afterDelete := (afterDelete JSON_stringify).
#[local] Abbreviation afterSave := (afterSave JSON_stringify).

Lemma history_afterDelete (i : Z) (st : AppState) :
  history (afterDelete i st) = filter (fun item => negb (id item =? i)%Z) (history st).
Proof. reflexivity. Qed.

Lemma filter_Omits (i : Z) (h : list HistoryItem) :
  Omits i h (filter (fun item => negb (id item =? i)%Z) h).
Proof.
  induction h as [|x h IH]; simpl; [constructor|].
  destruct (Z.eqb_spec (id x) i); simpl; now constructor.
Qed.

(** [Omits] leaves one list only. *)
Lemma Omits_unique (i : Z) (h r r' : list HistoryItem) :
  Omits i h r -> Omits i h r' -> r = r'.
Proof.
  intros H; revert r'.
  induction H as [|x h r E _ IH|x h r E _ IH]; intros r' H'; inversion H'; subst;
    try congruence; auto.
  f_equal; auto.
Qed.

(** C8: saving a result puts the new entry first, before the former list in
    its order; deleting an id leaves the entries of the former list whose id
    differs, in their order; both write the new list to the store. *)
Theorem history_append_then_remove (st : AppState) :
  (forall now f m,
      history (afterSave now f m st)
      = {| id := now; filename := f; materials := m |} :: history st
      /\ localStorage (afterSave now f m st)
         = Some (JSON_stringify (historyToJS (history (afterSave now f m st)))))
  /\ (forall i,
      Omits i (history st) (history (afterDelete i st))
      /\ localStorage (afterDelete i st)
         = Some (JSON_stringify (historyToJS (history (afterDelete i st))))).
Proof.
  split.
  - intros now f m. split; reflexivity.
  - intros i. split; [|reflexivity].
    rewrite history_afterDelete. apply filter_Omits.
Qed.

Lemma filter_absent (i : Z) (h : list HistoryItem) :
  (forall x, In x h -> id x <> i) ->
  filter (fun item => negb (id item =? i)%Z) h = h.
Proof.
  induction h as [|x h IH]; simpl; intros H; [reflexivity|].
  destruct (Z.eqb_spec (id x) i) as [E|E]; simpl.
  - exfalso. apply (H x); auto.
  - f_equal. apply IH. intros y Hy. apply H; auto.
Qed.

Lemma filter_clears (i : Z) (h : list HistoryItem) (x : HistoryItem) :
  In x (filter (fun item => negb (id item =? i)%Z) h) -> id x <> i.
Proof.
  intros H. apply filter_In in H as [_ H].
  destruct (Z.eqb_spec (id x) i); [discriminate | assumption].
Qed.

(** C10: deleting an id that no entry carries leaves the list as it is;
    deleting the same id a second time changes nothing; and after one
    deletion no entry carries the id, however many carried it. *)
Theorem remove_absent_and_twice (i : Z) (st : AppState) :
  ((forall x, In x (history st) -> id x <> i) ->
   history (afterDelete i st) = history st)
  /\ history (afterDelete i (afterDelete i st)) = history (afterDelete i st)
  /\ (forall x, In x (history (afterDelete i st)) -> id x <> i).
Proof.
  repeat split.
  - intros H. rewrite history_afterDelete. now apply filter_absent.
  - rewrite (history_afterDelete i (afterDelete i st)).
    apply filter_absent. intros x. rewrite history_afterDelete. apply filter_clears.
  - intros x. rewrite history_afterDelete. apply filter_clears.
Qed.

End HistoryFacts.

Lemma remove_absent_and_twice_witness :
  history (afterDelete JSONText.stringify 9 threeEntries) = history threeEntries
  /\ history (afterDelete JSONText.stringify 5 threeEntries) = [entry 7 "b.mp3"].
Proof.
  split.
  - destruct (remove_absent_and_twice JSONText.stringify 9 threeEntries) as [H _].
    apply H. intros x Hx. simpl in Hx.
    destruct Hx as [E|[E|[E|[]]]]; subst x; simpl; lia.
  - reflexivity.
Defined.

(** ** Loading the history *)

(** The empty string is not a JSON text; the test [if (savedHistory)] takes
    it for no history at all, so that nothing is parsed and the text stays in
    the store. *)
Lemma empty_blob_stays_stored :
  JSON.parse [] = None
  /\ loadHistory JSON.parse (initialState (Some [])) = Loads (initialState (Some []))
  /\ localStorage (initialState (Some [])) = Some [].
Proof. repeat split. Qed.

(** C9: when the stored blob is not a JSON text, the effect that loads the
    history ends normally and the history is empty.  A blob that is not the
    empty string is also removed from the store; the empty string, which the
    effect takes for no history, is left there. *)
Theorem corrupt_blob_gives_empty_history
    (JSON_parse : jsstring -> option JSValue) (blob : jsstring) :
  JSON_parse blob = None ->
  exists st,
    loadHistory JSON_parse (initialState (Some blob)) = Loads st
    /\ history st = []
    /\ (blob <> [] -> localStorage st = None)
    /\ (blob = [] -> localStorage st = Some []).
Proof.
  intros H. unfold loadHistory. simpl.
  destruct blob as [|c r]; simpl.
  - eexists; repeat split; congruence.
  - rewrite H. eexists; repeat split; congruence.
Qed.

Lemma corrupt_blob_gives_empty_history_witness :
  exists st,
    loadHistory JSON.parse (initialState (Some (lit "[{"))) = Loads st
    /\ history st = []
    /\ (lit "[{" <> [] -> localStorage st = None)
    /\ (lit "[{" = [] -> localStorage st = Some []).
Proof.
  apply (corrupt_blob_gives_empty_history JSON.parse (lit "[{")).
  vm_compute. reflexivity.
Defined.

(** ** Objects *)

Lemma eqs_true (a b : jsstring) : eqs a b = true <-> a = b.
Proof. unfold eqs. destruct (list_eq_dec N.eq_dec a b); split; congruence. Qed.

Lemma eqs_refl (a : jsstring) : eqs a a = true.
Proof. now apply eqs_true. Qed.

Lemma objGet_objSet_same (k : jsstring) (v : JSValue) (o : JSObject) :
  objGet k (objSet k v o) = Some v.
Proof.
  induction o as [|[k' v'] o IH]; simpl.
  - now rewrite eqs_refl.
  - destruct (eqs k k') eqn:E; simpl; rewrite E; auto.
Qed.

Lemma objGet_objSet_other (k k' : jsstring) (v : JSValue) (o : JSObject) :
  k <> k' -> objGet k (objSet k' v o) = objGet k o.
Proof.
  intros N. induction o as [|[k2 v2] o IH]; simpl.
  - destruct (eqs k k') eqn:E; [apply eqs_true in E; congruence | reflexivity].
  - destruct (eqs k' k2) eqn:E; simpl.
    + apply eqs_true in E; subst k2.
      destruct (eqs k k') eqn:E2; [apply eqs_true in E2; congruence | reflexivity].
    + destruct (eqs k k2); auto.
Qed.

(** ** The fence around a structured response *)

Section FenceFacts.

Lemma trim_fenced (mid : jsstring) : trim (fence ++ mid ++ fence) = fence ++ mid ++ fence.
Proof.
  change (fence ++ mid ++ fence)
    with (BACKTICK :: ([BACKTICK; BACKTICK] ++ mid ++ [BACKTICK; BACKTICK] ++ [BACKTICK])).
  rewrite !app_assoc. apply trim_fixed; reflexivity.
Qed.

Lemma strip_tagged (mid : jsstring) :
  stripFence (fence ++ lit "json" ++ mid ++ fence) = trim mid.
Proof.
  assert (E : trim (fence ++ lit "json" ++ mid ++ fence) = lit "```json" ++ mid ++ fence).
  { rewrite (app_assoc (lit "json")), trim_fenced, <- app_assoc. reflexivity. }
  unfold stripFence. rewrite E, startsWith_app.
  change 7%Z with (Z.of_nat (List.length (lit "```json"))).
  change (-3)%Z with (- Z.of_nat (List.length fence))%Z.
  rewrite slice_between; [reflexivity | discriminate].
Qed.

Lemma no_tag_before_fence (mid : jsstring) :
  startsWith mid (lit "json") = false ->
  startsWith (mid ++ fence) (lit "json") = false.
Proof.
  change (lit "json") with [106; 115; 111; 110]%N.
  change fence with [96; 96; 96]%N.
  destruct mid as [|a [|b [|c [|d mid]]]]; cbn; auto;
    repeat match goal with
           | |- context [(?x =? ?y)%N] => destruct (x =? y)%N; cbn; auto
           end.
Qed.

Lemma strip_untagged (mid : jsstring) :
  startsWith mid (lit "json") = false ->
  stripFence (fence ++ mid ++ fence) = trim mid.
Proof.
  intros H. unfold stripFence. rewrite trim_fenced.
  replace (startsWith (fence ++ mid ++ fence) (lit "```json")) with false.
  - rewrite startsWith_app.
    change 3%Z with (Z.of_nat (List.length fence)).
    change (-3)%Z with (- Z.of_nat (List.length fence))%Z.
    rewrite slice_between; [reflexivity | discriminate].
  - change (lit "```json") with (fence ++ lit "json").
    rewrite startsWith_cancel. symmetry. now apply no_tag_before_fence.
Qed.

Lemma strip_plain (payload : jsstring) :
  startsWith (trim payload) fence = false -> stripFence payload = trim payload.
Proof.
  intros H. unfold stripFence.
  destruct (startsWith (trim payload) (lit "```json")) eqn:E.
  - change (lit "```json") with (fence ++ lit "json") in E.
    apply startsWith_shorter in E. congruence.
  - change (lit "```") with fence. now rewrite H.
Qed.

(** White space around the whole response is dropped before anything else. *)
Lemma stripFence_padding (o1 s o2 : jsstring) :
  forallb isWhiteSpace o1 = true -> forallb isWhiteSpace o2 = true ->
  stripFence (o1 ++ s ++ o2) = stripFence s.
Proof.
  intros H1 H2. unfold stripFence. now rewrite trim_padding.
Qed.

(** After white space the text that follows the fence cannot begin with the
    tag. *)
Lemma no_tag_after_space (w s : jsstring) :
  forallb isWhiteSpace w = true -> w <> [] -> startsWith (w ++ s) (lit "json") = false.
Proof.
  intros H N. destruct w as [|c w]; [congruence|].
  simpl in H. apply andb_true_iff in H as [Hc _].
  change (lit "json") with [106; 115; 111; 110]%N. cbn [startsWith app].
  destruct (N.eqb_spec 106 c) as [E|E]; [|reflexivity].
  subst c. discriminate Hc.
Qed.

(** One fence is stripped, not two: a payload that is itself fenced is handed
    to [JSON.parse] with its own fence when it comes wrapped. *)
Lemma nested_fence_stripped_once :
  stripFence (lit "```1```") = lit "1"
  /\ stripFence (fenced (lit "json") [LF] (lit "```1```") [LF]) = lit "```1```".
Proof. vm_compute. split; reflexivity. Qed.

End FenceFacts.

(** ** The pipeline *)

Ltac exec :=
  cbv beta iota zeta delta
    [generate run stateAfter eventsOf handleGenerate stages bind ret throw tryCatch
     finally modify emit setMediaFile setAudioData setIsProcessing setLoadingMessage
     setStudyMaterials setError setActiveTab setProgress setHistory
     clearProgressInterval startProgressSimulation generateContent parseStudyGuide
     pause handleSaveToHistory localStorage_setItem fst snd negb app
     withMediaFile withAudioData withIsProcessing withLoadingMessage withStudyMaterials
     withError withActiveTab withProgress withHistory withProgressInterval
     withLocalStorage mediaFile audioData isProcessing loadingMessage studyMaterials
     error activeTab progress history progressInterval localStorage text
     failedState completedState endState enters1 enters2 enters3 parsedGuide].

Ltac same_answers :=
  repeat match goal with
         | H : ?b ?q = _, H' : ?b ?q = _ |- _ =>
             rewrite H in H'; inversion H'; subst; clear H'
         end.

Section PipelineFacts.

Variable JSON_parse : jsstring -> option JSValue.
Variable JSON_stringify : JSValue -> jsstring.
Variable API_KEY : option jsstring.

#[local] Abbreviation generate := (generate JSON_parse JSON_stringify API_KEY).
#[local] Abbreviation parsedGuide := (parsedGuide JSON_parse).
#[local] Abbreviation completedState := (completedState JSON_stringify).
#[local] Abbreviation Attempt := (Attempt JSON_parse).
#[local] Abbreviation endState := (endState JSON_stringify).

Lemma blank_truthy (r : GenerateContentResponse) (t : jsstring) :
  text r = Some t -> blank r = negb (truthy (trim t)).
Proof.
  intros E. unfold blank. rewrite E.
  destruct (truthy (trim t)) eqn:T; simpl.
  - destruct (forallb isWhiteSpace t) eqn:B; [|reflexivity].
    apply trim_blank_iff in B. congruence.
  - now apply trim_blank_iff.
Qed.

(** A run that starts with the credential set and the media encoded goes as
    one of the six attempts, and ends in the state of its result after the
    banner is cleared. *)
Lemma started_run (backend : Backend) (now : Z) (st : AppState)
    (audio : AudioData) (file : File) :
  apiKeySet API_KEY = true -> audioData st = Some audio -> mediaFile st = Some file ->
  exists evs res,
    Attempt backend audio evs res
    /\ run (generate backend now) st
       = (Ok tt, (endState now file st res, evs ++ [SetLoadingMessage []])).
Proof.
  intros Hk Ha Hf.
  destruct st; simpl in Ha, Hf; subst.
  destruct (backend (transcriptionRequest audio)) as [r|e] eqn:B1.
  2:{ exists (enters1 audio), (inl e). split; [now constructor|].
      exec. rewrite Hk. exec. rewrite B1. reflexivity. }
  destruct (blank r) eqn:Bl.
  { exists (enters1 audio), (inl (ErrorObject emptyTranscriptMessage)).
    split; [now apply Attempt_blank with r|].
    exec. rewrite Hk. exec. rewrite B1. exec.
    destruct r as [[t|]]; [|reflexivity].
    rewrite (blank_truthy {| text := Some t |} t eq_refl) in Bl.
    destruct (truthy (trim t)); [discriminate | reflexivity]. }
  destruct r as [[t|]]; [|discriminate].
  assert (T : truthy (trim t) = true).
  { rewrite (blank_truthy {| text := Some t |} t eq_refl) in Bl. now destruct (truthy (trim t)). }
  destruct (backend (studyGuideRequest t)) as [r2|e] eqn:B2.
  2:{ exists (enters1 audio ++ enters2 t), (inl e).
      split; [now apply Attempt_rejected2 with {| text := Some t |}|].
      exec. rewrite Hk. exec. rewrite B1. exec. rewrite T. exec. rewrite B2.
      reflexivity. }
  destruct (parsedGuide r2) as [v|] eqn:P.
  2:{ exists (enters1 audio ++ enters2 t), (inl (ErrorObject malformedMessage)).
      split; [now apply Attempt_malformed with {| text := Some t |} r2|].
      exec. rewrite Hk. exec. rewrite B1. exec. rewrite T. exec. rewrite B2.
      unfold parsedGuide in P. destruct r2 as [[s|]]; simpl in P; exec;
        [rewrite P|]; reflexivity. }
  destruct (backend (detailedNotesRequest t)) as [r3|e] eqn:B3.
  - exists (enters1 audio ++ enters2 t ++ enters3 t), (inr (t, v, text r3)).
    split; [now apply Attempt_completed with {| text := Some t |} r2|].
    exec. rewrite Hk. exec. rewrite B1. exec. rewrite T. exec. rewrite B2.
    unfold parsedGuide in P. destruct r2 as [[s|]]; simpl in P; [|discriminate].
    exec. rewrite P. exec. rewrite B3. reflexivity.
  - exists (enters1 audio ++ enters2 t ++ enters3 t), (inl e).
    split; [now apply Attempt_rejected3 with {| text := Some t |} r2 v|].
    exec. rewrite Hk. exec. rewrite B1. exec. rewrite T. exec. rewrite B2.
    unfold parsedGuide in P. destruct r2 as [[s|]]; simpl in P; [|discriminate].
    exec. rewrite P. exec. rewrite B3. reflexivity.
Qed.

Lemma classify_emptyTranscript :
  classify (ErrorObject emptyTranscriptMessage)
  = {| message := emptyTranscriptMessage; retryable := false |}.
Proof. vm_compute. reflexivity. Qed.

Lemma classify_malformed :
  classify (ErrorObject malformedMessage)
  = {| message := malformedMessage; retryable := true |}.
Proof. vm_compute. reflexivity. Qed.

(** A thrown value is read as retryable unless it is an [Error] whose message
    contains the words of the empty-transcript failure and neither of the two
    marks of a network failure. *)
Lemma classify_retryable (e : Thrown) :
  retryable (classify e)
  = match e with
    | ErrorObject m =>
        includes m (lit "xhr error") || includes m (lit "500")
        || negb (includes m (lit "Transcription failed"))
    | NotAnError => true
    end.
Proof.
  destruct e as [m|]; [|reflexivity]. unfold classify.
  destruct (includes m (lit "xhr error") || includes m (lit "500")); [reflexivity|].
  destruct (includes m (lit "Transcription failed")); reflexivity.
Qed.

Lemma classify_not_retryable (e : Thrown) :
  retryable (classify e) = false
  <-> exists m, e = ErrorObject m
                /\ includes m (lit "Transcription failed") = true
                /\ includes m (lit "xhr error") = false
                /\ includes m (lit "500") = false.
Proof.
  rewrite classify_retryable. destruct e as [m|].
  - destruct (includes m (lit "xhr error")) eqn:X, (includes m (lit "500")) eqn:F,
             (includes m (lit "Transcription failed")) eqn:T; simpl; split; intros H;
      try discriminate;
      try (destruct H as (m' & E & H1 & H2 & H3); inversion E; subst m'; congruence).
    exists m; repeat split; assumption.
  - split; [discriminate | intros (m & E & _); discriminate].
Qed.

(** Every attempt begins with the banner and the call of stage 1 and reads
    no file. *)
Lemma Attempt_begins (backend : Backend) (audio : AudioData) evs res :
  Attempt backend audio evs res ->
  fileReads evs = [] /\ exists rest, evs = enters1 audio ++ rest.
Proof.
  intros H; inversion H; subst; (split; [reflexivity|]).
  - now exists [].
  - now exists [].
  - now exists (enters2 t).
  - now exists (enters2 t).
  - now exists (enters2 t ++ enters3 t).
  - now exists (enters2 t ++ enters3 t).
Qed.

Lemma fileReads_app (a b : list Event) : fileReads (a ++ b) = fileReads a ++ fileReads b.
Proof.
  induction a as [|ev a IH]; simpl; [reflexivity|].
  destruct ev; simpl; now rewrite IH.
Qed.

Lemma run_without_key (backend : Backend) (now : Z) (st : AppState) :
  apiKeySet API_KEY = false ->
  run (generate backend now) st
  = (Ok tt, (withError (Some {| message := apiKeyMissingMessage; retryable := false |}) st,
             [])).
Proof.
  intros Hk. unfold generate, run, handleGenerate. rewrite Hk. reflexivity.
Qed.

Lemma run_without_media (backend : Backend) (now : Z) (st : AppState) :
  apiKeySet API_KEY = true ->
  audioData st = None \/ mediaFile st = None ->
  run (generate backend now) st
  = (Ok tt, (withError (Some {| message := audioNotReadyMessage; retryable := true |}) st,
             [])).
Proof.
  intros Hk Hm. unfold generate, run, handleGenerate. rewrite Hk. simpl.
  destruct Hm as [Hm|Hm]; rewrite Hm; [reflexivity|].
  destruct (audioData st); reflexivity.
Qed.

(** C5: without a credential [handleGenerate] only sets the configuration
    error, which is not retryable; with a credential but without the encoded
    media (or without the file) it only sets the readiness error, which is
    retryable.  In both cases it makes no call, displays no banner and leaves
    every other state variable, [isProcessing] among them, as it was. *)
Theorem start_refused (backend : Backend) (now : Z) (st : AppState) :
  (apiKeySet API_KEY = false ->
   run (generate backend now) st
   = (Ok tt, (withError (Some {| message := apiKeyMissingMessage; retryable := false |}) st,
              [])))
  /\ (apiKeySet API_KEY = true ->
      audioData st = None \/ mediaFile st = None ->
      run (generate backend now) st
      = (Ok tt, (withError (Some {| message := audioNotReadyMessage; retryable := true |}) st,
                 []))).
Proof.
  split; [apply run_without_key | apply run_without_media].
Qed.

(** C1: when the call of stage 1 returns no text, the empty text or white
    space only, the run ends with the error of the empty transcript, which is
    not retryable, with no record; the call of stage 1 is the only call. *)
Theorem blank_transcript_fails (backend : Backend) (now : Z) (st : AppState)
    (audio : AudioData) (file : File) (r : GenerateContentResponse) :
  apiKeySet API_KEY = true -> audioData st = Some audio -> mediaFile st = Some file ->
  backend (transcriptionRequest audio) = Resolved r ->
  blank r = true ->
  run (generate backend now) st
  = (Ok tt, (failedState {| message := emptyTranscriptMessage; retryable := false |} st,
             enters1 audio ++ [SetLoadingMessage []]))
  /\ error (stateAfter (generate backend now) st)
     = Some {| message := emptyTranscriptMessage; retryable := false |}
  /\ studyMaterials (stateAfter (generate backend now) st) = None
  /\ requests (eventsOf (generate backend now) st) = [transcriptionRequest audio].
Proof.
  intros Hk Ha Hf B1 Bl.
  destruct (started_run backend now st audio file Hk Ha Hf) as (evs & res & At & R).
  assert (E : evs = enters1 audio /\ res = inl (ErrorObject emptyTranscriptMessage)).
  { inversion At; subst; try (split; reflexivity); congruence. }
  destruct E; subst evs res.
  unfold stateAfter, eventsOf. rewrite R. unfold endState.
  rewrite classify_emptyTranscript. repeat split.
Qed.

(** C3: a payload between a fence tagged [json] and a closing fence, or
    between an untagged fence and a closing fence, is parsed as the payload
    alone is: in each case the text handed to [JSON.parse] is the trimmed
    payload, and the study guide obtained is the value that [JSON.parse]
    gives for it, or an exception when it gives none.  This holds for a
    payload that does not itself begin with a fence and, for the untagged
    fence, when what follows the fence does not begin with the tag.  And when
    the text of stage 2 is missing or is not JSON once the fence is stripped,
    the run ends with the error of the malformed response, retryable, with no
    record, no call of stage 3 and the history untouched, the handler
    returning normally. *)
Theorem fence_stripped_and_malformed_reported :
  (forall payload w1 w2,
      forallb isWhiteSpace w1 = true -> forallb isWhiteSpace w2 = true ->
      startsWith (trim payload) fence = false ->
      (stripFence payload = trim payload
       /\ forall st,
           (forall v, JSON_parse (trim payload) = Some v ->
                      run (parseStudyGuide JSON_parse {| text := Some payload |}) st
                      = (Ok v, (st, [])))
           /\ (JSON_parse (trim payload) = None ->
               exists e, run (parseStudyGuide JSON_parse {| text := Some payload |}) st
                         = (Throw e, (st, []))))
      /\ (stripFence (fenced (lit "json") w1 payload w2) = trim payload
          /\ parseStudyGuide JSON_parse {| text := Some (fenced (lit "json") w1 payload w2) |}
             = parseStudyGuide JSON_parse {| text := Some payload |})
      /\ (startsWith (w1 ++ payload ++ w2) (lit "json") = false ->
          stripFence (fenced [] w1 payload w2) = trim payload
          /\ parseStudyGuide JSON_parse {| text := Some (fenced [] w1 payload w2) |}
             = parseStudyGuide JSON_parse {| text := Some payload |}))
  /\ (forall backend now st audio file r t r2,
      apiKeySet API_KEY = true -> audioData st = Some audio -> mediaFile st = Some file ->
      backend (transcriptionRequest audio) = Resolved r ->
      text r = Some t -> blank r = false ->
      backend (studyGuideRequest t) = Resolved r2 ->
      parsedGuide r2 = None ->
      run (generate backend now) st
      = (Ok tt, (failedState {| message := malformedMessage; retryable := true |} st,
                 enters1 audio ++ enters2 t ++ [SetLoadingMessage []]))).
Proof.
  split.
  - intros payload w1 w2 H1 H2 Hp.
    pose proof (strip_plain _ Hp) as Ep.
    assert (Et : stripFence (fenced (lit "json") w1 payload w2) = trim payload).
    { unfold fenced. rewrite strip_tagged. now apply trim_padding. }
    split; [split; [exact Ep|]|split; [split; [exact Et|]|]].
    + intros st. unfold run, parseStudyGuide. cbn [text]. rewrite Ep. split.
      * intros v E. now rewrite E.
      * intros E. rewrite E. eexists. reflexivity.
    + unfold parseStudyGuide. cbn [text]. now rewrite Et, Ep.
    + intros Hj.
      assert (Eu : stripFence (fenced [] w1 payload w2) = trim payload).
      { unfold fenced. simpl app at 2. rewrite (strip_untagged _ Hj).
        now apply trim_padding. }
      split; [exact Eu|].
      unfold parseStudyGuide. cbn [text]. now rewrite Eu, Ep.
  - intros backend now st audio file r t r2 Hk Ha Hf B1 Tr Bl B2 P.
    destruct (started_run backend now st audio file Hk Ha Hf) as (evs & res & At & R).
    assert (E : evs = enters1 audio ++ enters2 t
                /\ res = inl (ErrorObject malformedMessage)).
    { inversion At; subst;
        repeat match goal with
               | H : backend ?q = _, H' : backend ?q = _ |- _ =>
                   rewrite H in H'; inversion H'; subst; clear H'
               | H : text ?q = _, H' : text ?q = _ |- _ =>
                   rewrite H in H'; inversion H'; subst; clear H'
               end; try congruence; split; reflexivity. }
    destruct E; subst evs res.
    rewrite R. unfold endState. rewrite classify_malformed.
    now rewrite <- app_assoc.
Qed.

(** C2 (amended): when the last call of a run is rejected with [e], the run
    ends with the error that [classify] reads from [e], which is retryable
    unless the message of [e] contains the words of the empty-transcript
    failure and no mark of a network failure; the record displayed before the
    run was cleared when the run began and none is displayed after it; the
    history and the store are as they were. *)
Theorem rejected_call_fails_run (backend : Backend) (now : Z) (st : AppState)
    (audio : AudioData) (file : File) (req : Request) (e : Thrown) :
  apiKeySet API_KEY = true -> audioData st = Some audio -> mediaFile st = Some file ->
  lastRequest (eventsOf (generate backend now) st) = Some req ->
  backend req = Rejected e ->
  stateAfter (generate backend now) st = failedState (classify e) st
  /\ studyMaterials (stateAfter (generate backend now) st) = None
  /\ history (stateAfter (generate backend now) st) = history st
  /\ localStorage (stateAfter (generate backend now) st) = localStorage st
  /\ (retryable (classify e) = false
      <-> exists m, e = ErrorObject m
                    /\ includes m (lit "Transcription failed") = true
                    /\ includes m (lit "xhr error") = false
                    /\ includes m (lit "500") = false).
Proof.
  intros Hk Ha Hf L B.
  destruct (started_run backend now st audio file Hk Ha Hf) as (evs & res & At & R).
  unfold stateAfter, eventsOf in *. rewrite R in *.
  assert (E : res = inl e).
  { inversion At; subst;
      cbv beta iota zeta delta
        [lastRequest requests enters1 enters2 enters3 app map last snd] in L;
      inversion L; subst; same_answers; reflexivity. }
  subst res. simpl.
  split; [reflexivity|]. split; [reflexivity|]. split; [reflexivity|].
  split; [reflexivity|]. apply classify_not_retryable.
Qed.

(** C4 (amended): a run that ends without error displays the record made of
    the properties of the parsed study guide, of [transcript], which holds
    the text of stage 1, a text that is not empty and not white space only,
    and of [detailedNotes], which holds the text of stage 3, or [undefined]
    when stage 3 returned none; every other property is as the backend
    supplied it, or missing; the record is also the first entry of the
    history. *)
Theorem completed_run_record (backend : Backend) (now : Z) (st : AppState)
    (audio : AudioData) (file : File) :
  apiKeySet API_KEY = true -> audioData st = Some audio -> mediaFile st = Some file ->
  error (stateAfter (generate backend now) st) = None ->
  exists r t r2 v r3 m,
    backend (transcriptionRequest audio) = Resolved r /\ text r = Some t
    /\ backend (studyGuideRequest t) = Resolved r2 /\ parsedGuide r2 = Some v
    /\ backend (detailedNotesRequest t) = Resolved r3
    /\ studyMaterials (stateAfter (generate backend now) st) = Some m
    /\ history (stateAfter (generate backend now) st)
       = {| id := now; filename := name file; materials := m |} :: history st
    /\ objGet (lit "transcript") m = Some (JString t)
    /\ populated (lit "transcript") m = true
    /\ truthy (trim t) = true
    /\ objGet (lit "detailedNotes") m = Some (textOrUndefined (text r3))
    /\ (forall k, k <> lit "transcript" -> k <> lit "detailedNotes" ->
        objGet k m = objGet k (spread v)).
Proof.
  intros Hk Ha Hf Hc.
  destruct (started_run backend now st audio file Hk Ha Hf) as (evs & res & At & R).
  unfold stateAfter in *. rewrite R in *.
  inversion At; subst; try discriminate Hc.
  assert (Gt : objGet (lit "transcript") (finalMaterials v t (text r3)) = Some (JString t)).
  { unfold finalMaterials.
    rewrite objGet_objSet_other by (vm_compute; discriminate).
    apply objGet_objSet_same. }
  exists r, t, r2, v, r3, (finalMaterials v t (text r3)).
  repeat split; auto.
  - unfold populated. now rewrite Gt.
  - rewrite (blank_truthy r t) in H1 by assumption.
    now destruct (truthy (trim t)).
  - apply objGet_objSet_same.
  - intros k N1 N2. unfold finalMaterials.
    rewrite !objGet_objSet_other by assumption. reflexivity.
Qed.

(** [processFile] is the handler that reads the selected file. *)
Lemma processFile_reads (f : File) (st : AppState) :
  fileReads (eventsOf (processFile (Some f)) st) = [f].
Proof. reflexivity. Qed.

(** A firing of the interval applies [progressTick] to the value displayed. *)
Lemma intervalFires_progress (st : AppState) :
  progressInterval st = true ->
  progress (intervalFires st) = Progress.progressTick (progress st).
Proof.
  intros H. unfold intervalFires. rewrite H.
  destruct (99 <=? progress st)%float; reflexivity.
Qed.

Lemma run_keeps_media (backend : Backend) (now : Z) (st : AppState) :
  audioData (stateAfter (generate backend now) st) = audioData st
  /\ mediaFile (stateAfter (generate backend now) st) = mediaFile st.
Proof.
  destruct (apiKeySet API_KEY) eqn:Hk.
  - destruct (audioData st) as [audio|] eqn:Ha.
    + destruct (mediaFile st) as [file|] eqn:Hf.
      * destruct (started_run backend now st audio file Hk Ha Hf) as (evs & res & At & R).
        unfold stateAfter. rewrite R. simpl.
        destruct res as [e|[[t v] notes]]; simpl; auto.
      * unfold stateAfter.
        rewrite (run_without_media backend now st Hk (or_intror Hf)). simpl. auto.
    + unfold stateAfter.
      rewrite (run_without_media backend now st Hk (or_introl Ha)). simpl. auto.
  - unfold stateAfter. rewrite (run_without_key backend now st Hk). simpl. auto.
Qed.

(** C6: after a run that left a retryable error, the button of the error
    panel invokes [handleGenerate] again; the encoded media and the file of
    the state are those of the failed run; the new run reads no file, and when
    the media is there its first events are the banner of stage 1 and the call
    of stage 1 with that media, whichever stage had failed (without the media
    it makes no call at all). *)
Theorem retry_restarts_at_transcription (backend1 : Backend) (now1 : Z)
    (st : AppState) (e : PipelineError) :
  error (stateAfter (generate backend1 now1) st) = Some e ->
  retryable e = true ->
  onRetry JSON_parse JSON_stringify API_KEY (stateAfter (generate backend1 now1) st)
  = Some generate
  /\ audioData (stateAfter (generate backend1 now1) st) = audioData st
  /\ mediaFile (stateAfter (generate backend1 now1) st) = mediaFile st
  /\ forall backend2 now2,
      let evs := eventsOf (generate backend2 now2) (stateAfter (generate backend1 now1) st) in
      fileReads evs = []
      /\ match audioData st, mediaFile st with
         | Some audio, Some _ => exists rest, evs = enters1 audio ++ rest
         | _, _ => evs = []
         end.
Proof.
  intros He Hr.
  destruct (run_keeps_media backend1 now1 st) as [Ka Kf].
  set (st1 := stateAfter (generate backend1 now1) st) in *.
  assert (Hk : apiKeySet API_KEY = true).
  { destruct (apiKeySet API_KEY) eqn:Hk; [reflexivity|].
    unfold st1, stateAfter in He.
    rewrite (run_without_key backend1 now1 st Hk) in He. simpl in He.
    inversion He; subst e. discriminate Hr. }
  split; [unfold onRetry; now rewrite He, Hr|].
  split; [exact Ka|]. split; [exact Kf|].
  intros backend2 now2 evs. subst evs. unfold eventsOf.
  destruct (audioData st) as [audio|] eqn:Ha.
  - destruct (mediaFile st) as [file|] eqn:Hf.
    + destruct (started_run backend2 now2 st1 audio file Hk Ka Kf)
        as (evs & res & At & R).
      rewrite R. simpl.
      destruct (Attempt_begins backend2 audio evs res At) as (Fr & rest & Er).
      split.
      * rewrite fileReads_app, Fr. reflexivity.
      * exists (rest ++ [SetLoadingMessage []]). rewrite Er. now rewrite <- app_assoc.
    + rewrite (run_without_media backend2 now2 st1 Hk (or_intror Kf)). simpl. auto.
  - rewrite (run_without_media backend2 now2 st1 Hk (or_introl Ka)). simpl. auto.
Qed.

End PipelineFacts.

(** ** Runs on concrete inputs *)

Lemma start_refused_witness :
  run (generate JSON.parse JSONText.stringify None (answers (says []) (says []) (says [])) 0)
      readyState
  = (Ok tt, (withError (Some {| message := apiKeyMissingMessage; retryable := false |})
                       readyState, []))
  /\ run (generate JSON.parse JSONText.stringify demoKey
                   (answers (says []) (says []) (says [])) 0)
         (initialState None)
     = (Ok tt, (withError (Some {| message := audioNotReadyMessage; retryable := true |})
                          (initialState None), [])).
Proof.
  split.
  - apply (start_refused JSON.parse JSONText.stringify None). reflexivity.
  - apply (start_refused JSON.parse JSONText.stringify demoKey).
    + reflexivity.
    + left. reflexivity.
Defined.

Lemma blank_transcript_fails_witness :
  blank {| text := Some (lit "   ") |} = true
  /\ error (demoRun silent readyState)
     = Some {| message := emptyTranscriptMessage; retryable := false |}
  /\ requests (demoEvents silent readyState) = [transcriptionRequest demoAudio].
Proof.
  destruct (blank_transcript_fails JSON.parse JSONText.stringify demoKey silent
              1700000000000 readyState demoAudio demoFile {| text := Some (lit "   ") |}
              eq_refl eq_refl eq_refl eq_refl eq_refl) as (_ & He & _ & Hq).
  repeat split; assumption.
Defined.

Lemma fence_stripped_and_malformed_reported_witness :
  (stripFence (fenced (lit "json") [LF] formulaGuide [LF]) = formulaGuide
   /\ stripFence (fenced [] [LF] formulaGuide [LF]) = formulaGuide
   /\ (exists v, run (parseStudyGuide JSON.parse {| text := Some formulaGuide |}) readyState
                 = (Ok v, (readyState, [])))
   /\ parseStudyGuide JSON.parse {| text := Some (fenced (lit "json") [LF] formulaGuide [LF]) |}
      = parseStudyGuide JSON.parse {| text := Some formulaGuide |}
   /\ parseStudyGuide JSON.parse {| text := Some (fenced [] [LF] formulaGuide [LF]) |}
      = parseStudyGuide JSON.parse {| text := Some formulaGuide |})
  /\ run (generate JSON.parse JSONText.stringify demoKey garbled 0) readyState
     = (Ok tt, (failedState {| message := malformedMessage; retryable := true |} readyState,
                enters1 demoAudio ++ enters2 newton ++ [SetLoadingMessage []])).
Proof.
  destruct (fence_stripped_and_malformed_reported JSON.parse JSONText.stringify demoKey)
    as [Hfence Hbad].
  split.
  - destruct (Hfence formulaGuide [LF] [LF] eq_refl eq_refl eq_refl)
      as ((_ & Hparse) & (Htext & Htag) & Hbare).
    destruct (Hbare eq_refl) as [Hbtext Hbparse].
    destruct (Hparse readyState) as [Hv _].
    split; [exact Htext|]. split; [exact Hbtext|].
    split; [|split; [exact Htag | exact Hbparse]].
    destruct (JSON.parse (trim formulaGuide)) as [v|] eqn:E.
    + exists v. now apply Hv.
    + vm_compute in E. discriminate E.
  - apply (Hbad garbled 0%Z readyState demoAudio demoFile {| text := Some newton |} newton
                {| text := Some (lit "{" ++ q "formulas" ++ lit ":[1,]}") |});
      reflexivity.
Defined.

(** C2 (refuted as stated): a record is displayed, the call of stage 1 is
    rejected with a network error, and after the run, which ends with a
    retryable error, the record is no longer displayed. *)
Lemma shown_record_cleared_by_failed_run :
  lastRequest (demoEvents offline shownState) = Some (transcriptionRequest demoAudio)
  /\ offline (transcriptionRequest demoAudio) = Rejected (ErrorObject (lit "xhr error"))
  /\ error (demoRun offline shownState)
     = Some {| message := networkErrorMessage; retryable := true |}
  /\ studyMaterials shownState = Some earlierRecord
  /\ studyMaterials (demoRun offline shownState) = None
  /\ studyMaterials (demoRun offline shownState) <> studyMaterials shownState.
Proof. repeat split; try reflexivity. discriminate. Qed.

(** A rejected call whose message holds the words of the empty-transcript
    failure is read as that failure: the error is not retryable. *)
Lemma rejection_read_as_empty_transcript :
  classify (ErrorObject (lit "Transcription failed: deadline exceeded"))
  = {| message := lit "Transcription failed: deadline exceeded"; retryable := false |}.
Proof. vm_compute. reflexivity. Qed.

Lemma rejected_call_fails_run_witness :
  stateAfter (generate JSON.parse JSONText.stringify demoKey offline 0) shownState
  = failedState (classify (ErrorObject (lit "xhr error"))) shownState
  /\ studyMaterials (stateAfter (generate JSON.parse JSONText.stringify demoKey offline 0)
                                shownState) = None.
Proof.
  destruct (rejected_call_fails_run JSON.parse JSONText.stringify demoKey offline 0
              shownState demoAudio demoFile (transcriptionRequest demoAudio)
              (ErrorObject (lit "xhr error")) eq_refl eq_refl eq_refl eq_refl eq_refl)
    as (Hs & Hm & _).
  split; assumption.
Defined.

(** C4 (refuted as stated): the run completes, and the record it displays and
    saves has no [summary], nor any of the four other structured fields. *)
Lemma completed_record_without_summary :
  error (demoRun terse readyState) = None
  /\ studyMaterials (demoRun terse readyState) = Some terseRecord
  /\ map materials (history (demoRun terse readyState)) = [terseRecord]
  /\ populated (lit "summary") terseRecord = false
  /\ populated (lit "keySections") terseRecord = false
  /\ populated (lit "formulas") terseRecord = false
  /\ populated (lit "glossary") terseRecord = false
  /\ populated (lit "examQuestions") terseRecord = false.
Proof. repeat split. Qed.

Lemma completed_run_record_witness :
  exists m,
    studyMaterials (demoRun helpful readyState) = Some m
    /\ objGet (lit "transcript") m = Some (JString newton)
    /\ objGet (lit "formulas") m = Some (JArray [JString (lit "F = m*a")]).
Proof.
  destruct (completed_run_record JSON.parse JSONText.stringify demoKey helpful
              1700000000000 readyState demoAudio demoFile
              eq_refl eq_refl eq_refl eq_refl)
    as (r & t & r2 & v & r3 & m & B1 & T1 & B2 & P & B3 & Hm & _ & Ht & _ & _ & _ & Hk).
  exists m. split; [exact Hm|].
  inversion B1; subst r. inversion T1; subst t.
  inversion B2; subst r2. inversion P; subst v.
  split; [exact Ht|].
  rewrite Hk by (vm_compute; discriminate).
  reflexivity.
Defined.

(** For the run against [helpful], the text written to the store parses back
    to the history on display. *)
Example saved_history_loads_back :
  match localStorage (demoRun helpful readyState) with
  | Some blob =>
      loadHistory JSON.parse (initialState (Some blob))
      = Loads (withHistory (history (demoRun helpful readyState))
                           (initialState (Some blob)))
  | None => False
  end.
Proof. vm_compute. reflexivity. Qed.

(** The prompt of stage 2 holds the transcript. *)
Example studyGuidePrompt_holds_transcript :
  includes (studyGuidePrompt newton) newton = true.
Proof. vm_compute. reflexivity. Qed.

Lemma retry_restarts_at_transcription_witness :
  onRetry JSON.parse JSONText.stringify demoKey (demoRun garbled readyState)
  = Some (generate JSON.parse JSONText.stringify demoKey)
  /\ audioData (demoRun garbled readyState) = Some demoAudio
  /\ exists rest,
      demoEvents helpful (demoRun garbled readyState) = enters1 demoAudio ++ rest.
Proof.
  destruct (retry_restarts_at_transcription JSON.parse JSONText.stringify demoKey
              garbled 1700000000000 readyState
              {| message := malformedMessage; retryable := true |} eq_refl eq_refl)
    as (Hr & Ha & _ & Hev).
  split; [exact Hr|]. split; [exact Ha|].
  destruct (Hev helpful 1700000000000%Z) as [_ H]. exact H.
Defined.

(** * Further properties *)

(** ** A run as a whole *)

Lemma includes_here (s sub : jsstring) :
  startsWith s sub = true -> includes s sub = true.
Proof. intros H. destruct s; simpl; now rewrite H. Qed.

Lemma includes_later (a s sub : jsstring) :
  includes s sub = true -> includes (a ++ s) sub = true.
Proof.
  intros H. induction a as [|c a IH]; simpl; [exact H|].
  rewrite IH. apply orb_true_r.
Qed.

Lemma includes_middle (a t b : jsstring) : includes (a ++ t ++ b) t = true.
Proof. apply includes_later, includes_here, startsWith_app. Qed.

(** X1: the prompt of stage 2 and the prompt of stage 3 hold the transcript
    as it is, whatever it is. *)
Theorem prompts_hold_transcript (t : jsstring) :
  includes (studyGuidePrompt t) t = true /\ includes (detailedNotesPrompt t) t = true.
Proof.
  split.
  - unfold studyGuidePrompt.
    repeat first [ apply includes_here, startsWith_app | apply includes_later ].
  - unfold detailedNotesPrompt.
    repeat first [ apply includes_here, startsWith_app | apply includes_later ].
Qed.

Ltac exec_refusing :=
  cbv beta iota zeta delta
    [run stateAfter eventsOf Quota.handleGenerate Quota.stages bind ret throw tryCatch
     finally modify emit setMediaFile setAudioData setIsProcessing setLoadingMessage
     setStudyMaterials setError setActiveTab setProgress setHistory
     clearProgressInterval startProgressSimulation generateContent parseStudyGuide
     pause Quota.handleSaveToHistory Quota.localStorage_setItem fst snd negb app
     withMediaFile withAudioData withIsProcessing withLoadingMessage withStudyMaterials
     withError withActiveTab withProgress withHistory withProgressInterval
     withLocalStorage mediaFile audioData isProcessing loadingMessage studyMaterials
     error activeTab progress history progressInterval localStorage text
     failedState completedState unsavedState savedHistory
     enters1 enters2 enters3 parsedGuide].

Section RunFacts.

Variable JSON_parse : jsstring -> option JSValue.
Variable JSON_stringify : JSValue -> jsstring.
Variable API_KEY : option jsstring.

#[local] Abbreviation generate := (generate JSON_parse JSON_stringify API_KEY).
#[local] Abbreviation parsedGuide := (parsedGuide JSON_parse).
#[local] Abbreviation completedState := (completedState JSON_stringify).
#[local] Abbreviation Attempt := (Attempt JSON_parse).
#[local] Abbreviation endState := (endState JSON_stringify).

(** A run is refused, or it starts. *)
Lemma refused_or_started (backend : Backend) (now : Z) (st : AppState) :
  (exists e, run (generate backend now) st = (Ok tt, (withError (Some e) st, [])))
  \/ (exists audio file evs res,
        audioData st = Some audio /\ mediaFile st = Some file
        /\ Attempt backend audio evs res
        /\ run (generate backend now) st
           = (Ok tt, (endState now file st res, evs ++ [SetLoadingMessage []]))).
Proof.
  destruct (apiKeySet API_KEY) eqn:Hk.
  - destruct (audioData st) as [audio|] eqn:Ha.
    + destruct (mediaFile st) as [file|] eqn:Hf.
      * right.
        destruct (started_run JSON_parse JSON_stringify API_KEY backend now st audio file
                    Hk Ha Hf) as (evs & res & At & R).
        exists audio, file, evs, res. auto.
      * left. eexists.
        apply (run_without_media JSON_parse JSON_stringify API_KEY backend now st Hk).
        now right.
    + left. eexists.
      apply (run_without_media JSON_parse JSON_stringify API_KEY backend now st Hk).
      now left.
  - left. eexists.
    apply (run_without_key JSON_parse JSON_stringify API_KEY backend now st Hk).
Qed.

(** X2: a run makes no call, or the call of stage 1 alone, or the calls of
    stages 1 and 2, or the calls of the three stages, in this order; stage 1
    receives the encoded media of the state and stages 2 and 3 the text that
    stage 1 returned. *)
Theorem run_calls_in_order (backend : Backend) (now : Z) (st : AppState) :
  let rs := requests (eventsOf (generate backend now) st) in
  rs = []
  \/ exists audio,
      audioData st = Some audio
      /\ (rs = [transcriptionRequest audio]
          \/ exists r t,
              backend (transcriptionRequest audio) = Resolved r /\ text r = Some t
              /\ (rs = [transcriptionRequest audio; studyGuideRequest t]
                  \/ rs = [transcriptionRequest audio; studyGuideRequest t;
                           detailedNotesRequest t])).
Proof.
  intros rs. subst rs. unfold eventsOf.
  destruct (refused_or_started backend now st)
    as [[e R] | (audio & file & evs & res & Ha & Hf & At & R)]; rewrite R.
  - now left.
  - right. exists audio. split; [exact Ha|].
    inversion At; subst; simpl.
    + now left.
    + now left.
    + right. exists r, t. auto.
    + right. exists r, t. auto.
    + right. exists r, t. auto.
    + right. exists r, t. auto.
Qed.

(** X3: when [handleGenerate] returns, either it has only set an error and
    nothing else has happened, or the loader is hidden, the interval is
    cleared, the progress is 0 and the banner is empty: no path out of a run
    leaves the timer running. *)
Theorem run_leaves_no_timer (backend : Backend) (now : Z) (st : AppState) :
  (exists e,
      stateAfter (generate backend now) st = withError (Some e) st
      /\ eventsOf (generate backend now) st = [])
  \/ (isProcessing (stateAfter (generate backend now) st) = false
      /\ progressInterval (stateAfter (generate backend now) st) = false
      /\ progress (stateAfter (generate backend now) st) = 0%float
      /\ loadingMessage (stateAfter (generate backend now) st) = []
      /\ last (banners (eventsOf (generate backend now) st)) step1Message = []).
Proof.
  unfold stateAfter, eventsOf.
  destruct (refused_or_started backend now st)
    as [[e R] | (audio & file & evs & res & Ha & Hf & At & R)]; rewrite R.
  - left. exists e. auto.
  - right. simpl.
    assert (L : last (banners (evs ++ [SetLoadingMessage []])) step1Message = []).
    { inversion At; subst; reflexivity. }
    destruct res as [e|[[t v] notes]]; simpl; auto.
Qed.

(** Over a store that never refuses, the handler is [handleGenerate]. *)
Lemma never_refused :
  Quota.handleGenerate JSON_parse JSON_stringify API_KEY (fun _ => None)
  = handleGenerate JSON_parse JSON_stringify API_KEY.
Proof. reflexivity. Qed.

(** A run over a store that may refuse goes as one of the six attempts; when
    the three stages went well its end depends on the store. *)
Lemma refusing_run (refusal : jsstring -> option Thrown) (backend : Backend) (now : Z)
    (st : AppState) (audio : AudioData) (file : File) :
  apiKeySet API_KEY = true -> audioData st = Some audio -> mediaFile st = Some file ->
  exists evs res,
    Attempt backend audio evs res
    /\ run (Quota.handleGenerate JSON_parse JSON_stringify API_KEY refusal backend now) st
       = (Ok tt,
          (match res with
           | inl e => failedState (classify e) st
           | inr (t, v, notes) =>
               let m := finalMaterials v t notes in
               match refusal (JSON_stringify (historyToJS (savedHistory m now file st))) with
               | None => completedState m now file st
               | Some e => unsavedState (classify e) m now file st
               end
           end,
           evs ++ [SetLoadingMessage []])).
Proof.
  intros Hk Ha Hf.
  destruct st; simpl in Ha, Hf; subst.
  destruct (backend (transcriptionRequest audio)) as [r|e] eqn:B1.
  2:{ exists (enters1 audio), (inl e). split; [now constructor|].
      exec_refusing. rewrite Hk. exec_refusing. rewrite B1. reflexivity. }
  destruct (blank r) eqn:Bl.
  { exists (enters1 audio), (inl (ErrorObject emptyTranscriptMessage)).
    split; [now apply Attempt_blank with r|].
    exec_refusing. rewrite Hk. exec_refusing. rewrite B1. exec_refusing.
    destruct r as [[t|]]; [|reflexivity].
    rewrite (blank_truthy {| text := Some t |} t eq_refl) in Bl.
    destruct (truthy (trim t)); [discriminate | reflexivity]. }
  destruct r as [[t|]]; [|discriminate].
  assert (T : truthy (trim t) = true).
  { rewrite (blank_truthy {| text := Some t |} t eq_refl) in Bl. now destruct (truthy (trim t)). }
  destruct (backend (studyGuideRequest t)) as [r2|e] eqn:B2.
  2:{ exists (enters1 audio ++ enters2 t), (inl e).
      split; [now apply Attempt_rejected2 with {| text := Some t |}|].
      exec_refusing. rewrite Hk. exec_refusing. rewrite B1. exec_refusing. rewrite T.
      exec_refusing. rewrite B2. reflexivity. }
  destruct (parsedGuide r2) as [v|] eqn:P.
  2:{ exists (enters1 audio ++ enters2 t), (inl (ErrorObject malformedMessage)).
      split; [now apply Attempt_malformed with {| text := Some t |} r2|].
      exec_refusing. rewrite Hk. exec_refusing. rewrite B1. exec_refusing. rewrite T.
      exec_refusing. rewrite B2.
      unfold parsedGuide in P. destruct r2 as [[s|]]; simpl in P; exec_refusing;
        [rewrite P|]; reflexivity. }
  destruct (backend (detailedNotesRequest t)) as [r3|e] eqn:B3.
  - exists (enters1 audio ++ enters2 t ++ enters3 t), (inr (t, v, text r3)).
    split; [now apply Attempt_completed with {| text := Some t |} r2|].
    exec_refusing. rewrite Hk. exec_refusing. rewrite B1. exec_refusing. rewrite T.
    exec_refusing. rewrite B2.
    unfold parsedGuide in P. destruct r2 as [[s|]]; simpl in P; [|discriminate].
    exec_refusing. rewrite P. exec_refusing. rewrite B3. exec_refusing.
    destruct (refusal _); reflexivity.
  - exists (enters1 audio ++ enters2 t ++ enters3 t), (inl e).
    split; [now apply Attempt_rejected3 with {| text := Some t |} r2 v|].
    exec_refusing. rewrite Hk. exec_refusing. rewrite B1. exec_refusing. rewrite T.
    exec_refusing. rewrite B2.
    unfold parsedGuide in P. destruct r2 as [[s|]]; simpl in P; [|discriminate].
    exec_refusing. rewrite P. exec_refusing. rewrite B3. reflexivity.
Qed.

(** X4: a run that starts from a history that is a list of entries, over a
    store that may refuse the write of the history, ends in one of three ways.  Either it displays an error and no
    record, and the history, the store and the active tab are as before.  Or
    the store took the new history: no error is displayed, the record is
    displayed and is the materials of a new first entry of the history, under
    the name of the file and the time of the save, the store holds the new
    history and the tab of the notes is active.  Or the store refused the new
    history: the error read from what the store threw is displayed together
    with the record, the history holds the new entry while the store is as
    before, and the active tab is as before. *)
Theorem started_run_three_ends (refusal : jsstring -> option Thrown) (backend : Backend)
    (now : Z) (st : AppState) (audio : AudioData) (file : File) :
  apiKeySet API_KEY = true -> audioData st = Some audio -> mediaFile st = Some file ->
  let st' :=
    stateAfter (Quota.handleGenerate JSON_parse JSON_stringify API_KEY refusal backend now)
               st in
  (exists e, error st' = Some e /\ studyMaterials st' = None
             /\ history st' = history st /\ localStorage st' = localStorage st
             /\ activeTab st' = activeTab st)
  \/ (exists m, refusal (JSON_stringify (historyToJS (savedHistory m now file st))) = None
                /\ error st' = None /\ studyMaterials st' = Some m
                /\ history st' = savedHistory m now file st
                /\ localStorage st'
                   = Some (JSON_stringify (historyToJS (savedHistory m now file st)))
                /\ activeTab st' = TabNotes)
  \/ (exists m e, refusal (JSON_stringify (historyToJS (savedHistory m now file st))) = Some e
                  /\ error st' = Some (classify e) /\ studyMaterials st' = Some m
                  /\ history st' = savedHistory m now file st
                  /\ localStorage st' = localStorage st
                  /\ activeTab st' = activeTab st).
Proof.
  intros Hk Ha Hf st'. subst st'. unfold stateAfter.
  destruct (refusing_run refusal backend now st audio file Hk Ha Hf)
    as (evs & res & At & R).
  rewrite R. destruct res as [e|[[t v] notes]]; cbn [fst snd].
  - left. exists (classify e). auto.
  - right. cbn zeta.
    destruct (refusal _) as [e|] eqn:Q.
    + right. exists (finalMaterials v t notes), e. auto 10.
    + left. exists (finalMaterials v t notes). auto 10.
Qed.

End RunFacts.

(** ** From the selected file to the first call *)

Lemma cutAtComma_at (h r : jsstring) :
  forallb noComma h = true -> cutAtComma (h ++ 44%N :: r) = (h, Some r).
Proof.
  induction h as [|c h IH]; simpl; intros H; [reflexivity|].
  apply andb_true_iff in H as [Hc Hh]. unfold noComma in Hc.
  destruct (c =? 44)%N; [discriminate|]. now rewrite (IH Hh).
Qed.

Lemma cutAtComma_none (p : jsstring) :
  forallb noComma p = true -> cutAtComma p = (p, None).
Proof.
  induction p as [|c p IH]; simpl; intros H; [reflexivity|].
  apply andb_true_iff in H as [Hc Hp]. unfold noComma in Hc.
  destruct (c =? 44)%N; [discriminate|]. now rewrite (IH Hp).
Qed.

Lemma plainUnit_facts (c : char16) :
  plainUnit c = true ->
  (c =? 44)%N = false /\ (c =? 59)%N = false /\ isLineTerminator c = false.
Proof.
  unfold plainUnit, mem16. simpl existsb at 1.
  destruct (c =? 44)%N, (c =? 59)%N, (isLineTerminator c); simpl; intros H;
    try discriminate; auto.
Qed.

Lemma plain_noComma (m : jsstring) :
  forallb plainUnit m = true -> forallb noComma m = true.
Proof.
  induction m as [|c m IH]; simpl; intros H; [reflexivity|].
  apply andb_true_iff in H as [Hc Hm].
  apply plainUnit_facts in Hc as (E & _ & _).
  unfold noComma. rewrite E. simpl. auto.
Qed.

Lemma untilSemicolon_at (m r : jsstring) :
  forallb plainUnit m = true -> untilSemicolon (m ++ 59%N :: r) = Some m.
Proof.
  induction m as [|c m IH]; simpl; intros H; [reflexivity|].
  apply andb_true_iff in H as [Hc Hm].
  apply plainUnit_facts in Hc as (_ & E & L).
  rewrite E, L, (IH Hm). reflexivity.
Qed.

Lemma dataURL_header (mime payload : jsstring) :
  dataURL mime payload = (lit "data:" ++ mime ++ lit ";base64") ++ 44%N :: payload.
Proof.
  unfold dataURL. change (lit ";base64,") with (lit ";base64" ++ [44%N]).
  now rewrite <- !app_assoc.
Qed.

Lemma header_mimeType (mime : jsstring) :
  forallb plainUnit mime = true ->
  matchMimeType (lit "data:" ++ mime ++ lit ";base64") = Some mime.
Proof.
  intros H.
  change (lit "data:") with [100; 97; 116; 97; 58]%N.
  change (lit ";base64") with (59%N :: lit "base64").
  cbn [app matchMimeType N.eqb Pos.eqb].
  now rewrite untilSemicolon_at.
Qed.

Lemma decodes_data_url (st : AppState) (mime payload : jsstring) :
  mime <> [] -> forallb plainUnit mime = true ->
  payload <> [] -> forallb noComma payload = true ->
  run (onloadend (Some (dataURL mime payload))) st
  = (Ok tt, (withAudioData (Some {| data := payload; mimeType := mime |}) st, [])).
Proof.
  intros Nm Pm Np Pp.
  unfold run, onloadend. rewrite dataURL_header, cutAtComma_at.
  - cbv beta iota zeta delta [option_map].
    rewrite (cutAtComma_none _ Pp). cbv beta iota zeta delta [fst].
    rewrite (header_mimeType _ Pm).
    destruct payload as [|c p]; [congruence|].
    destruct mime as [|d m]; [congruence|]. reflexivity.
  - rewrite !forallb_app, (plain_noComma _ Pm). reflexivity.
Qed.

(** X5: [onloadend] decodes a data URL: from the text [data:], a media type,
    [;base64,] and a payload, with a media type that is not empty and holds
    no comma, semicolon or line terminator and a payload that is not empty
    and holds no comma, it sets [audioData] to that payload and that media
    type and changes nothing else. *)
Theorem onloadend_decodes_data_url (st : AppState) (mime payload : jsstring) :
  mime <> [] -> forallb plainUnit mime = true ->
  payload <> [] -> forallb noComma payload = true ->
  run (onloadend (Some (dataURL mime payload))) st
  = (Ok tt, (withAudioData (Some {| data := payload; mimeType := mime |}) st, [])).
Proof. apply decodes_data_url. Qed.


Section IngestFacts.

Variable JSON_parse : jsstring -> option JSValue.
Variable JSON_stringify : JSValue -> jsstring.
Variable API_KEY : option jsstring.

#[local] Abbreviation generate := (generate JSON_parse JSON_stringify API_KEY).

(** X7: choosing a file clears the displayed record and the error and
    disables the button; until the content of the file is there, a run is
    refused with the readiness error, which is retryable, and makes no call. *)
Theorem run_refused_until_file_loaded (backend : Backend) (now : Z) (st : AppState)
    (f : File) :
  apiKeySet API_KEY = true ->
  let st1 := stateAfter (processFile (Some f)) st in
  studyMaterials st1 = None /\ error st1 = None /\ mediaFile st1 = Some f
  /\ generateDisabled st1 = true
  /\ run (generate backend now) st1
     = (Ok tt, (withError (Some {| message := audioNotReadyMessage; retryable := true |}) st1,
                [])).
Proof.
  intros Hk st1. subst st1. repeat split.
  apply (run_without_media JSON_parse JSON_stringify API_KEY backend now _ Hk).
  now left.
Qed.

(** X8: after a file is chosen and its data URL decoded, the button is
    enabled (when no run is going on) and a run begins with the banner of
    stage 1 and a call whose parts are the payload with its media type, as
    decoded, and the transcription prompt. *)
Theorem decoded_media_reaches_stage1 (backend : Backend) (now : Z) (st : AppState)
    (f : File) (mime payload : jsstring) :
  apiKeySet API_KEY = true ->
  mime <> [] -> forallb plainUnit mime = true ->
  payload <> [] -> forallb noComma payload = true ->
  let st2 := stateAfter (onloadend (Some (dataURL mime payload)))
                        (stateAfter (processFile (Some f)) st) in
  generateDisabled st2 = isProcessing st
  /\ exists req rest,
      eventsOf (generate backend now) st2
      = SetLoadingMessage step1Message :: GenerateContent req :: rest
      /\ parts req = [InlineData payload mime; Text transcriptionPrompt].
Proof.
  intros Hk Nm Pm Np Pp st2. subst st2.
  set (audio := {| data := payload; mimeType := mime |}).
  set (st1 := stateAfter (processFile (Some f)) st).
  assert (E2 : stateAfter (onloadend (Some (dataURL mime payload))) st1
               = withAudioData (Some audio) st1).
  { unfold stateAfter. now rewrite (decodes_data_url st1 mime payload Nm Pm Np Pp). }
  rewrite E2. split; [reflexivity|].
  destruct (started_run JSON_parse JSON_stringify API_KEY backend now
              (withAudioData (Some audio) st1) audio f Hk eq_refl eq_refl)
    as (evs & res & At & R).
  destruct (Attempt_begins JSON_parse backend audio evs res At) as (_ & rest & E).
  exists (transcriptionRequest audio), (rest ++ [SetLoadingMessage []]).
  split; [|reflexivity].
  unfold eventsOf. rewrite R, E. reflexivity.
Qed.

(** X9: viewing an entry of the history displays its materials and puts a
    file of its name in [mediaFile], but leaves [audioData] and the history
    as they are: a run started then sends the media encoded earlier to
    stage 1 and, when it completes, saves its record under the name of the
    entry viewed. *)
Theorem view_then_generate (backend : Backend) (now : Z) (st : AppState)
    (item : HistoryItem) (audio : AudioData) :
  apiKeySet API_KEY = true -> audioData st = Some audio ->
  let st1 := stateAfter (handleViewFromHistory item) st in
  let st2 := stateAfter (generate backend now) st1 in
  studyMaterials st1 = Some (materials item) /\ activeTab st1 = TabNotes
  /\ history st1 = history st /\ localStorage st1 = localStorage st
  /\ audioData st1 = Some audio
  /\ (exists rest, eventsOf (generate backend now) st1 = enters1 audio ++ rest)
  /\ (error st2 = None ->
      exists m, history st2
                = {| id := now; filename := filename item; materials := m |} :: history st).
Proof.
  intros Hk Ha st1 st2. subst st2 st1.
  set (st1 := stateAfter (handleViewFromHistory item) st).
  assert (Ha1 : audioData st1 = Some audio) by exact Ha.
  assert (Hf1 : mediaFile st1 = Some {| name := filename item |}) by reflexivity.
  destruct (started_run JSON_parse JSON_stringify API_KEY backend now st1 audio
              {| name := filename item |} Hk Ha1 Hf1) as (evs & res & At & R).
  destruct (Attempt_begins JSON_parse backend audio evs res At) as (_ & rest & E).
  split; [reflexivity|]. split; [reflexivity|]. split; [reflexivity|].
  split; [reflexivity|]. split; [exact Ha1|]. split.
  - exists (rest ++ [SetLoadingMessage []]).
    unfold eventsOf. rewrite R, E. cbn [snd]. now rewrite <- app_assoc.
  - unfold stateAfter. rewrite R. cbn [fst snd].
    destruct res as [e|[[t v] notes]]; simpl; [discriminate|].
    intros _. exists (finalMaterials v t notes). reflexivity.
Qed.

End IngestFacts.

(** ** More on the history *)

Lemma filter_swap {A} (f g : A -> bool) (l : list A) :
  filter f (filter g l) = filter g (filter f l).
Proof.
  induction l as [|x l IH]; simpl; [reflexivity|].
  destruct (f x) eqn:F, (g x) eqn:G; simpl; rewrite ?F, ?G, IH; reflexivity.
Qed.

Lemma StronglySorted_filter {A} (R : A -> A -> Prop) (f : A -> bool) (l : list A) :
  StronglySorted R l -> StronglySorted R (filter f l).
Proof.
  induction 1 as [|x l S IH F]; simpl; [constructor|].
  destruct (f x); [|exact IH].
  constructor; [exact IH|].
  rewrite Forall_forall in *. intros y Hy. apply filter_In in Hy as [Hy _]. auto.
Qed.

Lemma NoDup_ids_filter (f : HistoryItem -> bool) (h : list HistoryItem) :
  NoDup (map id h) -> NoDup (map id (filter f h)).
Proof.
  induction h as [|x h IH]; simpl; intros N; [constructor|].
  inversion N as [|? ? Nx Nh]; subst.
  destruct (f x); simpl; [|auto].
  constructor; [|auto].
  intros Hin. apply Nx. apply in_map_iff in Hin as (y & Ey & Hy).
  apply filter_In in Hy as [Hy _]. apply in_map_iff. eauto.
Qed.

Section HistoryMore.

Variable JSON_stringify : JSValue -> jsstring.

#[local] Abbreviation afterDelete := (afterDelete JSON_stringify).
#[local] Abbreviation afterSave := (afterSave JSON_stringify).

Lemma afterDelete_state (i : Z) (st : AppState) :
  afterDelete i st
  = let kept := filter (fun item => negb (id item =? i)%Z) (history st) in
    withLocalStorage (Some (JSON_stringify (historyToJS kept))) (withHistory kept st).
Proof. reflexivity. Qed.

(** X10: two deletions commute: the state after deleting [i] and then [j],
    store included, is the state after deleting [j] and then [i]. *)
Theorem deletes_commute (i j : Z) (st : AppState) :
  afterDelete i (afterDelete j st) = afterDelete j (afterDelete i st).
Proof.
  rewrite !afterDelete_state. destruct st. cbn.
  now rewrite (filter_swap (fun item => negb (id item =? i)%Z)).
Qed.


(** X12: the order of the history, newest first, is kept: by a deletion
    always, and by a save whose time is later than the id of every entry. *)
Theorem newest_first_kept (st : AppState) :
  newestFirst (history st) ->
  (forall i, newestFirst (history (afterDelete i st)))
  /\ (forall now f m,
         (forall x, In x (history st) -> (id x < now)%Z) ->
         newestFirst (history (afterSave now f m st))).
Proof.
  intros S. split.
  - intros i. rewrite afterDelete_state. cbn. now apply StronglySorted_filter.
  - intros now f m Late. cbn. constructor; [exact S|].
    apply Forall_forall. intros x Hx. cbn. now apply Late.
Qed.

(** X13: entries with distinct ids keep distinct ids, by a deletion always
    and by a save whose time is the id of no entry; and among distinct ids a
    deletion removes the one entry that carries the id and no other. *)
Theorem distinct_ids_kept (st : AppState) :
  NoDup (map id (history st)) ->
  (forall i, NoDup (map id (history (afterDelete i st))))
  /\ (forall now f m,
         (forall x, In x (history st) -> id x <> now) ->
         NoDup (map id (history (afterSave now f m st))))
  /\ (forall a x b,
         history st = a ++ x :: b ->
         history (afterDelete (id x) st) = a ++ b).
Proof.
  intros N. split; [|split].
  - intros i. rewrite afterDelete_state. cbn. now apply NoDup_ids_filter.
  - intros now f m Fresh. cbn. constructor; [|exact N].
    intros Hin. apply in_map_iff in Hin as (y & Ey & Hy). now apply (Fresh y).
  - intros a x b E. rewrite afterDelete_state. cbn. rewrite E in *.
    rewrite map_app in N. cbn in N.
    rewrite filter_app. cbn. rewrite Z.eqb_refl. cbn.
    apply NoDup_remove_2 in N.
    rewrite !filter_absent; [reflexivity | |];
      intros y Hy Ey; apply N; apply in_or_app; [right | left];
      apply in_map_iff; eauto.
Qed.

End HistoryMore.

(** ** What the components display *)

Lemma mapItems_Ok (l : list JSValue) : mapItems Ok l = Ok l.
Proof.
  induction l as [|v l IH]; [reflexivity|].
  cbn [mapItems andThen]. now rewrite IH.
Qed.

Lemma glossaryItem_returns (item : JSValue) :
  (exists p, glossaryItem item = Ok p) <-> nullish item = false.
Proof.
  unfold glossaryItem.
  destruct item; cbn; split; intros H; try discriminate; eauto;
    destruct H as [p H]; discriminate.
Qed.

Lemma glossary_returns (l : list JSValue) :
  (exists g, mapItems glossaryItem l = Ok g)
  <-> forallb (fun item => negb (nullish item)) l = true.
Proof.
  induction l as [|v l IH]; cbn [mapItems forallb].
  - split; eauto.
  - split.
    + intros [g H].
      destruct (glossaryItem v) as [p|e] eqn:E; cbn [andThen] in H; [|discriminate].
      destruct (mapItems glossaryItem l) as [r|e] eqn:E2; cbn [andThen] in H;
        [|discriminate].
      assert (N : nullish v = false) by (apply glossaryItem_returns; eauto).
      rewrite N. cbn. apply IH. eauto.
    + intros H. apply andb_true_iff in H as [N H].
      apply IH in H as [r Hr].
      assert (N' : nullish v = false) by now destruct (nullish v).
      apply glossaryItem_returns in N' as [p Hp].
      exists (p :: r). rewrite Hp. cbn [andThen]. rewrite Hr. reflexivity.
Qed.

Lemma glossary_length (l : list JSValue) (g : list (JSValue * JSValue)) :
  mapItems glossaryItem l = Ok g -> List.length g = List.length l.
Proof.
  revert g. induction l as [|v l IH]; cbn [mapItems]; intros g H.
  - now inversion H.
  - destruct (glossaryItem v) as [p|e]; cbn [andThen] in H; [|discriminate].
    destruct (mapItems glossaryItem l) as [r|e]; cbn [andThen] in H; [|discriminate].
    inversion H; subst. cbn. f_equal. now apply IH.
Qed.

Lemma StudyNotes_Ok (m : StudyMaterials) (v : StudyNotesView) :
  StudyNotes m = Ok v ->
  prop m "keySections" = JArray (shownKeySections v)
  /\ prop m "formulas" = JArray (shownFormulas v)
  /\ prop m "examQuestions" = JArray (shownExamQuestions v)
  /\ shownSummary v = prop m "summary"
  /\ exists items, prop m "glossary" = JArray items
                   /\ mapItems glossaryItem items = Ok (shownGlossary v).
Proof.
  unfold StudyNotes. fold glossaryItem.
  destruct (prop m "keySections") as [| | | | |ks|]; cbn [arrayMap andThen];
    try discriminate.
  rewrite mapItems_Ok. cbn [andThen].
  destruct (prop m "formulas") as [| | | | |fs|]; cbn [arrayMap andThen];
    try discriminate.
  rewrite mapItems_Ok. cbn [andThen].
  destruct (prop m "glossary") as [| | | | |gs|]; cbn [arrayMap andThen];
    try discriminate.
  destruct (mapItems glossaryItem gs) as [gl|e] eqn:G; cbn [andThen];
    [|discriminate].
  destruct (prop m "examQuestions") as [| | | | |qs|]; cbn [arrayMap andThen];
    try discriminate.
  rewrite mapItems_Ok. cbn [andThen].
  intros H; inversion H; subst; cbn. repeat split. eauto.
Qed.

Lemma StudyNotes_returns (m : StudyMaterials) :
  (exists v, StudyNotes m = Ok v) <-> listsReadable m = true.
Proof.
  split.
  - intros [v H]. apply StudyNotes_Ok in H as (K & F & Q & _ & items & G & M).
    unfold listsReadable. rewrite K, F, Q, G. cbn. rewrite andb_true_r.
    apply glossary_returns. eauto.
  - unfold listsReadable, StudyNotes. fold glossaryItem. intros H.
    apply andb_true_iff in H as [H Q]. apply andb_true_iff in H as [H G].
    apply andb_true_iff in H as [K F].
    destruct (prop m "keySections") as [| | | | |ks|]; try discriminate.
    destruct (prop m "formulas") as [| | | | |fs|]; try discriminate.
    destruct (prop m "glossary") as [| | | | |gs|]; try discriminate.
    destruct (prop m "examQuestions") as [| | | | |qs|]; try discriminate.
    cbn in G. apply glossary_returns in G as [gl G].
    cbn [arrayMap]. rewrite !mapItems_Ok, G. cbn [andThen]. eauto.
Qed.

(** X15: [StudyNotes] returns its elements exactly when the record holds an
    array under each of [keySections], [formulas], [glossary] and
    [examQuestions] and no item of the glossary is [null]; otherwise it
    throws.  When it returns, the lists displayed are the items of these
    arrays, in their order, one glossary line for each glossary item. *)
Theorem StudyNotes_returns_iff_lists (m : StudyMaterials) :
  ((exists v, StudyNotes m = Ok v) <-> listsReadable m = true)
  /\ (listsReadable m = false -> exists e, StudyNotes m = Throw e)
  /\ (forall v, StudyNotes m = Ok v ->
        prop m "keySections" = JArray (shownKeySections v)
        /\ prop m "formulas" = JArray (shownFormulas v)
        /\ prop m "examQuestions" = JArray (shownExamQuestions v)
        /\ exists items, prop m "glossary" = JArray items
                         /\ List.length (shownGlossary v) = List.length items).
Proof.
  split; [apply StudyNotes_returns|]. split.
  - intros H. destruct (StudyNotes m) as [v|e] eqn:E; [|eauto].
    assert (listsReadable m = true) by (apply StudyNotes_returns; eauto).
    congruence.
  - intros v H. apply StudyNotes_Ok in H as (K & F & Q & _ & items & G & M).
    repeat split; auto. exists items. split; [exact G|].
    now apply glossary_length.
Qed.

Lemma prop_finalMaterials_other (v : JSValue) (t : jsstring) (notes : option jsstring)
    (k : string) :
  lit k <> lit "transcript" -> lit k <> lit "detailedNotes" ->
  prop (finalMaterials v t notes) k = prop (spread v) k.
Proof.
  intros N1 N2. unfold prop, finalMaterials.
  now rewrite !objGet_objSet_other by assumption.
Qed.

Lemma listsReadable_finalMaterials (v : JSValue) (t : jsstring) (notes : option jsstring) :
  listsReadable (finalMaterials v t notes) = listsReadable (spread v).
Proof.
  unfold listsReadable.
  rewrite !prop_finalMaterials_other by (vm_compute; discriminate). reflexivity.
Qed.

Lemma prop_finalMaterials_transcript (v : JSValue) (t : jsstring) (notes : option jsstring) :
  prop (finalMaterials v t notes) "transcript" = JString t.
Proof.
  unfold prop, finalMaterials.
  rewrite objGet_objSet_other by (vm_compute; discriminate).
  now rewrite objGet_objSet_same.
Qed.

Lemma prop_finalMaterials_notes (v : JSValue) (t : jsstring) (notes : option jsstring) :
  prop (finalMaterials v t notes) "detailedNotes" = textOrUndefined notes.
Proof.
  unfold prop, finalMaterials. rewrite objGet_objSet_same. now destruct notes.
Qed.

Lemma typedAsSchema_finalMaterials (v : JSValue) (t : jsstring) (notes : option jsstring) :
  typedAsSchema (finalMaterials v t notes) = typedAsSchema (spread v).
Proof.
  unfold typedAsSchema.
  rewrite !prop_finalMaterials_other by (vm_compute; discriminate). reflexivity.
Qed.

Lemma glossary_entries (l : list JSValue) :
  forallb isGlossaryEntry l = true ->
  exists g, mapItems glossaryItem l = Ok g
            /\ forallb (fun p => isString (fst p) && isString (snd p)) g = true.
Proof.
  induction l as [|item l IH]; cbn [forallb mapItems]; intros H.
  - exists []. split; reflexivity.
  - apply andb_true_iff in H as [Hi Hl]. apply IH in Hl as (g & Hg & Hs).
    destruct item as [| | | | | |o]; try discriminate Hi.
    exists ((prop o "term", prop o "definition") :: g).
    unfold glossaryItem at 1. cbn [member andThen]. rewrite Hg. cbn [andThen].
    split; [reflexivity|]. cbn [forallb fst snd].
    cbn [isGlossaryEntry] in Hi. now rewrite Hi, Hs.
Qed.

(** A record of the types of the schema is displayed, and all that is
    displayed of it is strings. *)
Lemma typed_record_displayed (m : StudyMaterials) :
  typedAsSchema m = true ->
  exists view,
    StudyNotes m = Ok view
    /\ childrenAreStrings view = true
    /\ prop m "summary" = shownSummary view
    /\ prop m "keySections" = JArray (shownKeySections view)
    /\ prop m "formulas" = JArray (shownFormulas view)
    /\ prop m "examQuestions" = JArray (shownExamQuestions view)
    /\ exists items, prop m "glossary" = JArray items
                     /\ List.length (shownGlossary view) = List.length items.
Proof.
  unfold typedAsSchema, StudyNotes. fold glossaryItem. intros H.
  apply andb_true_iff in H as [H Q]. apply andb_true_iff in H as [H G].
  apply andb_true_iff in H as [H F]. apply andb_true_iff in H as [S K].
  destruct (prop m "keySections") as [| | | | |ks|]; try discriminate.
  destruct (prop m "formulas") as [| | | | |fs|]; try discriminate.
  destruct (prop m "glossary") as [| | | | |gs|]; try discriminate.
  destruct (prop m "examQuestions") as [| | | | |qs|]; try discriminate.
  cbn [isArrayOf] in K, F, G, Q.
  destruct (glossary_entries gs G) as (gl & Hg & Hs).
  cbn [arrayMap]. rewrite !mapItems_Ok, Hg. cbn [andThen].
  eexists. split; [reflexivity|].
  unfold childrenAreStrings.
  cbn [shownSummary shownKeySections shownFormulas shownGlossary shownExamQuestions].
  rewrite S, K, F, Hs, Q.
  repeat split. exists gs. split; [reflexivity|]. now apply glossary_length.
Qed.

Section DisplayFacts.

Variable JSON_parse : jsstring -> option JSValue.
Variable JSON_stringify : JSValue -> jsstring.
Variable API_KEY : option jsstring.

#[local] Abbreviation generate := (generate JSON_parse JSON_stringify API_KEY).
#[local] Abbreviation parsedGuide := (parsedGuide JSON_parse).

(** A run that ends without error went through the three stages. *)
Lemma completed_run (backend : Backend) (now : Z) (st : AppState)
    (audio : AudioData) (file : File) :
  apiKeySet API_KEY = true -> audioData st = Some audio -> mediaFile st = Some file ->
  error (stateAfter (generate backend now) st) = None ->
  exists r t r2 v r3,
    backend (transcriptionRequest audio) = Resolved r /\ text r = Some t
    /\ backend (studyGuideRequest t) = Resolved r2 /\ parsedGuide r2 = Some v
    /\ backend (detailedNotesRequest t) = Resolved r3
    /\ stateAfter (generate backend now) st
       = completedState JSON_stringify (finalMaterials v t (text r3)) now file st.
Proof.
  intros Hk Ha Hf Hc.
  destruct (started_run JSON_parse JSON_stringify API_KEY backend now st audio file
              Hk Ha Hf) as (evs & res & At & R).
  unfold stateAfter in *. rewrite R in *.
  inversion At; subst; try discriminate Hc.
  exists r, t, r2, v, r3. auto 10.
Qed.

(** X16: after a run that completed, the tab of the notes is active.  When
    the value parsed from the answer of stage 2 lacks an array under one of
    the four list keys, or holds [null] in the glossary, [StudyNotes] throws
    while the result is rendered, although the run has completed and the
    record is saved.  When the value has the types that the response schema
    asks for, [StudyNotes] returns, what it displays is the summary, the items
    of the three lists and one line for each glossary item of the answer, and
    every value it places in an element is a string. *)
Theorem completed_run_notes_panel (backend : Backend) (now : Z) (st : AppState)
    (audio : AudioData) (file : File) :
  apiKeySet API_KEY = true -> audioData st = Some audio -> mediaFile st = Some file ->
  error (stateAfter (generate backend now) st) = None ->
  exists r t r2 v,
    backend (transcriptionRequest audio) = Resolved r /\ text r = Some t
    /\ backend (studyGuideRequest t) = Resolved r2 /\ parsedGuide r2 = Some v
    /\ activeTab (stateAfter (generate backend now) st) = TabNotes
    /\ (listsReadable (spread v) = false ->
        exists e, resultsPanel (stateAfter (generate backend now) st) = Some (Throw e))
    /\ (typedAsSchema (spread v) = true ->
        exists view,
          resultsPanel (stateAfter (generate backend now) st) = Some (Ok (NotesPanel view))
          /\ childrenAreStrings view = true
          /\ prop (spread v) "summary" = shownSummary view
          /\ prop (spread v) "keySections" = JArray (shownKeySections view)
          /\ prop (spread v) "formulas" = JArray (shownFormulas view)
          /\ prop (spread v) "examQuestions" = JArray (shownExamQuestions view)
          /\ exists items, prop (spread v) "glossary" = JArray items
                           /\ List.length (shownGlossary view) = List.length items).
Proof.
  intros Hk Ha Hf Hc.
  destruct (completed_run backend now st audio file Hk Ha Hf Hc)
    as (r & t & r2 & v & r3 & B1 & T1 & B2 & P & B3 & E).
  exists r, t, r2, v. rewrite E.
  split; [exact B1|]. split; [exact T1|]. split; [exact B2|]. split; [exact P|].
  split; [reflexivity|].
  unfold resultsPanel. cbn [studyMaterials activeTab completedState].
  split.
  - intros H.
    pose proof (StudyNotes_returns (finalMaterials v t (text r3))) as S.
    rewrite listsReadable_finalMaterials in S.
    destruct (StudyNotes (finalMaterials v t (text r3))) as [w|e] eqn:E2.
    + assert (listsReadable (spread v) = true) by (apply S; eauto). congruence.
    + exists e. reflexivity.
  - intros H. rewrite <- (typedAsSchema_finalMaterials v t (text r3)) in H.
    apply typed_record_displayed in H as (view & Hv & Hc' & Hs & Hk' & Hf' & Hq & items & Hg & Hl).
    exists view. rewrite Hv. cbn [andThen].
    rewrite !prop_finalMaterials_other in * by (vm_compute; discriminate).
    repeat split; auto. exists items. auto.
Qed.

(** X17: after a run that completed, the tab of the transcript displays the
    text of stage 1, and the tab of the detailed notes displays the elements
    formatted from the text of stage 3 when there is one; when stage 3
    returned no text, [DetailedNotesDisplay] throws. *)
Theorem completed_run_other_panels (backend : Backend) (now : Z) (st : AppState)
    (audio : AudioData) (file : File) :
  apiKeySet API_KEY = true -> audioData st = Some audio -> mediaFile st = Some file ->
  error (stateAfter (generate backend now) st) = None ->
  exists r t r3,
    backend (transcriptionRequest audio) = Resolved r /\ text r = Some t
    /\ backend (detailedNotesRequest t) = Resolved r3
    /\ resultsPanel (withActiveTab TabTranscript (stateAfter (generate backend now) st))
       = Some (Ok (TranscriptPanel (JString t)))
    /\ resultsPanel (withActiveTab TabDetailed (stateAfter (generate backend now) st))
       = Some match text r3 with
              | Some notes => Ok (DetailedPanel (formattedNotes notes))
              | None => Throw (typeError "Cannot read properties (reading 'split')")
              end.
Proof.
  intros Hk Ha Hf Hc.
  destruct (completed_run backend now st audio file Hk Ha Hf Hc)
    as (r & t & r2 & v & r3 & B1 & T1 & B2 & P & B3 & E).
  exists r, t, r3. rewrite E.
  split; [exact B1|]. split; [exact T1|]. split; [exact B3|].
  unfold resultsPanel.
  cbn [studyMaterials activeTab completedState withActiveTab].
  rewrite prop_finalMaterials_transcript, prop_finalMaterials_notes.
  split; [reflexivity|]. now destruct (text r3).
Qed.

End DisplayFacts.

(** ** The lines of the detailed notes *)

Lemma joinLines_cons (l l2 : jsstring) (ls : list jsstring) :
  joinLines (l :: l2 :: ls) = l ++ LF :: joinLines (l2 :: ls).
Proof. reflexivity. Qed.

Lemma splitLines_shape (s : jsstring) :
  List.length (splitLines s) = S (count_occ N.eq_dec s LF)
  /\ joinLines (splitLines s) = s
  /\ Forall (fun l => ~ In LF l) (splitLines s).
Proof.
  induction s as [|c s (L & J & F)].
  - cbn. repeat split. constructor; [tauto | constructor].
  - cbn [splitLines count_occ]. unfold LF in *.
    destruct (N.eqb_spec c 10) as [E|E].
    + subst c. destruct (N.eq_dec 10 10) as [_|N]; [|congruence].
      split; [cbn [List.length]; now rewrite L|]. split.
      * destruct (splitLines s) as [|l ls] eqn:S; [discriminate L|].
        rewrite joinLines_cons, J. reflexivity.
      * constructor; [tauto | exact F].
    + destruct (N.eq_dec c 10) as [N|_]; [congruence|].
      destruct (splitLines s) as [|l ls] eqn:S; [discriminate L|].
      split; [exact L|]. split.
      * destruct ls as [|l2 ls].
        -- cbn [joinLines] in *. now rewrite J.
        -- rewrite joinLines_cons in *. rewrite <- J. reflexivity.
      * inversion F as [|? ? Fl Fls]; subst.
        constructor; [|exact Fls].
        intros [H|H]; [congruence | tauto].
Qed.

(** X18: [DetailedNotesDisplay] makes one element of each line, in order:
    the lines hold no line feed, put together with line feeds they are the
    notes, and there is one more of them than line feeds in the notes. *)
Theorem formattedNotes_line_by_line (notes : jsstring) :
  exists lines,
    formattedNotes notes = map formatLine lines
    /\ joinLines lines = notes
    /\ Forall (fun l => ~ In LF l) lines
    /\ List.length (formattedNotes notes) = S (count_occ N.eq_dec notes LF).
Proof.
  destruct (splitLines_shape notes) as (L & J & F).
  exists (splitLines notes). unfold formattedNotes.
  rewrite length_map. auto.
Qed.

Lemma startsWith_prefix (s p : jsstring) :
  startsWith s p = true -> s = p ++ skipn (List.length p) s.
Proof.
  revert s. induction p as [|c p IH]; intros s H; [reflexivity|].
  destruct s as [|d s]; [discriminate|]. cbn in H.
  apply andb_true_iff in H as [E H]. apply N.eqb_eq in E. subst d.
  cbn. f_equal. now apply IH.
Qed.

(** The text that [trim] returns does not end with white space. *)
Lemma trim_no_trailing (s a : jsstring) (c : char16) :
  trim s = a ++ [c] -> isWhiteSpace c = false.
Proof.
  unfold trim, trimEnd. intros H.
  apply (f_equal (@rev _)) in H. rewrite rev_involutive, rev_app_distr in H.
  cbn in H. now apply trimStart_head in H.
Qed.

Lemma marker_has_content (line marker rest : jsstring) :
  trim line = (marker ++ [32%N]) ++ rest -> rest <> [].
Proof.
  intros H E. subst rest. rewrite app_nil_r in H.
  apply trim_no_trailing in H. discriminate H.
Qed.

Lemma eqs_nil (s : jsstring) : eqs s [] = true <-> s = [].
Proof. apply eqs_true. Qed.

Lemma marked_not_blank (line marker rest : jsstring) :
  trim line = (marker ++ [32%N]) ++ rest -> forallb isWhiteSpace line = true -> False.
Proof.
  intros H B. apply trim_blank_iff in B. rewrite H in B.
  destruct marker; discriminate B.
Qed.

(** X19: the element made of a line keeps the text of the line: the trimmed
    line is the marker of the element followed by the content of the
    element, the marker of a list item being [* ] or [- ].  The element is a
    line break exactly when the line holds white space only, and the content
    of every other element is not empty: a marker with nothing after it
    makes a paragraph, not an empty heading. *)
Theorem formatLine_keeps_text (line : jsstring) :
  trim line = markerOf (formatLine line) (trim line) ++ contentOf (formatLine line)
  /\ (formatLine line = Br <-> forallb isWhiteSpace line = true)
  /\ (formatLine line <> Br -> contentOf (formatLine line) <> [])
  /\ (forall s, formatLine line = Li s ->
        firstn 2 (trim line) = lit "* " \/ firstn 2 (trim line) = lit "- ").
Proof.
  unfold formatLine.
  destruct (startsWith (trim line) (lit "### ")) eqn:S4.
  { apply startsWith_prefix in S4. change (List.length (lit "### ")) with 4 in S4.
    split; [exact S4|]. split; [|split].
    - split; [discriminate|]. intros B. exfalso.
      now apply (marked_not_blank line (lit "###") _ S4).
    - intros _. now apply (marker_has_content line (lit "###")).
    - discriminate. }
  destruct (startsWith (trim line) (lit "## ")) eqn:S3.
  { apply startsWith_prefix in S3. change (List.length (lit "## ")) with 3 in S3.
    split; [exact S3|]. split; [|split].
    - split; [discriminate|]. intros B. exfalso.
      now apply (marked_not_blank line (lit "##") _ S3).
    - intros _. now apply (marker_has_content line (lit "##")).
    - discriminate. }
  destruct (startsWith (trim line) (lit "# ")) eqn:S2.
  { apply startsWith_prefix in S2. change (List.length (lit "# ")) with 2 in S2.
    split; [exact S2|]. split; [|split].
    - split; [discriminate|]. intros B. exfalso.
      now apply (marked_not_blank line (lit "#") _ S2).
    - intros _. now apply (marker_has_content line (lit "#")).
    - discriminate. }
  destruct (startsWith (trim line) (lit "* ") || startsWith (trim line) (lit "- ")) eqn:SL.
  { assert (D : trim line = lit "* " ++ skipn 2 (trim line)
                \/ trim line = lit "- " ++ skipn 2 (trim line)).
    { apply orb_true_iff in SL as [H|H]; apply startsWith_prefix in H; auto. }
    split; [cbn [markerOf contentOf]; symmetry; apply firstn_skipn|].
    split; [|split].
    - split; [discriminate|]. intros B. exfalso.
      destruct D as [D|D];
        [now apply (marked_not_blank line (lit "*") _ D)
        | now apply (marked_not_blank line (lit "-") _ D)].
    - intros _. cbn [contentOf].
      destruct D as [D|D];
        [now apply (marker_has_content line (lit "*"))
        | now apply (marker_has_content line (lit "-"))].
    - intros s _. destruct D as [D|D]; rewrite D; auto. }
  destruct (eqs (trim line) []) eqn:E.
  { apply eqs_nil in E.
    split; [now rewrite E|]. split; [|split].
    - split; [|reflexivity]. intros _. apply trim_blank_iff. now rewrite E.
    - congruence.
    - discriminate. }
  split; [reflexivity|]. split; [|split].
  - split; [discriminate|]. intros B. apply trim_blank_iff in B.
    destruct (trim line); [|discriminate B].
    rewrite eqs_refl in E. discriminate E.
  - intros _ H. cbn [contentOf] in H. rewrite H, eqs_refl in E. discriminate E.
  - discriminate.
Qed.

(** X20: white space before and after a line does not change the element
    made of it: the indentation of a line is not displayed. *)
Theorem formatLine_ignores_padding (w1 line w2 : jsstring) :
  forallb isWhiteSpace w1 = true -> forallb isWhiteSpace w2 = true ->
  formatLine (w1 ++ line ++ w2) = formatLine line.
Proof.
  intros H1 H2. unfold formatLine. now rewrite trim_padding.
Qed.

(** ** The name of the exported file *)

Lemma safeFilename_map (n : jsstring) : safeFilename n = map safeUnit n.
Proof. unfold safeFilename, toLowerCase, replaceUnsafe. now rewrite map_map. Qed.

Lemma range_true (a b c : N) : ((a <=? c) && (c <=? b))%N = true <-> (a <= c <= b)%N.
Proof. rewrite andb_true_iff, !N.leb_le. tauto. Qed.

Lemma range_false (a b c : N) : ((a <=? c) && (c <=? b))%N = false <-> ~ (a <= c <= b)%N.
Proof.
  rewrite <- range_true. destruct ((a <=? c) && (c <=? b))%N; split; congruence.
Qed.

Lemma safeUnit_cases (c : char16) :
  (safeUnit c = 95%N
   \/ isLowerLetter (safeUnit c) = true
   \/ JSON.isDigit (safeUnit c) = true
   \/ safeUnit c = 46%N)
  /\ (safeUnit c < 128)%N
  /\ isUpperLetter (safeUnit c) = false.
Proof.
  unfold safeUnit, keptInName.
  destruct (isLowerLetter c) eqn:L; cbn [orb].
  { assert (U : isUpperLetter c = false).
    { unfold isLowerLetter, isUpperLetter in *.
      apply range_true in L. apply range_false. lia. }
    rewrite U. split; [auto|]. split; [|exact U].
    unfold isLowerLetter in L. apply range_true in L. lia. }
  destruct (isUpperLetter c) eqn:U; cbn [orb].
  { rewrite U. unfold isLowerLetter, isUpperLetter in *.
    apply range_true in U. split; [|split].
    - right; left. apply range_true. lia.
    - lia.
    - apply range_false. lia. }
  destruct (JSON.isDigit c) eqn:D; cbn [orb].
  { rewrite U. split; [auto|]. split; [|exact U].
    unfold JSON.isDigit in D. apply range_true in D. lia. }
  destruct (N.eqb_spec c 46) as [E|E].
  { rewrite U. subst c. split; [auto|]. split; [lia | reflexivity]. }
  cbn. split; [auto|]. split; [lia | reflexivity].
Qed.

Lemma safeUnit_nameUnit (c : char16) : nameUnit (safeUnit c) = true.
Proof.
  destruct (safeUnit_cases c) as ([E|[L|[D|E]]] & _ & _); unfold nameUnit.
  - now rewrite E.
  - now rewrite L.
  - rewrite D. apply orb_true_iff. left. apply orb_true_r.
  - now rewrite E.
Qed.

Lemma safeUnit_twice (c : char16) : safeUnit (safeUnit c) = safeUnit c.
Proof.
  destruct (safeUnit_cases c) as (H & _ & U).
  set (d := safeUnit c) in *. unfold safeUnit, keptInName.
  destruct H as [E|[L|[D|E]]].
  - now rewrite E.
  - rewrite L. cbn [orb]. now rewrite U.
  - rewrite D, U. destruct (isLowerLetter d); cbn [orb]; now rewrite U.
  - now rewrite E.
Qed.

Lemma replaceUnsafe_ascii (n : jsstring) :
  forallb (fun c => (c <? 128)%N) (replaceUnsafe n) = true.
Proof.
  unfold replaceUnsafe. rewrite forallb_forall. intros x Hx.
  apply in_map_iff in Hx as (c & E & _). subst x. apply N.ltb_lt.
  unfold keptInName.
  destruct (isLowerLetter c) eqn:L; cbn [orb];
    [unfold isLowerLetter in L; apply range_true in L; lia|].
  destruct (isUpperLetter c) eqn:U; cbn [orb];
    [unfold isUpperLetter in U; apply range_true in U; lia|].
  destruct (JSON.isDigit c) eqn:D; cbn [orb];
    [unfold JSON.isDigit in D; apply range_true in D; lia|].
  destruct (N.eqb_spec c 46); [lia | cbn; lia].
Qed.

(** X21: the name under which a section is exported holds only lower-case
    letters, digits, points, underscores and hyphens, whatever the name of
    the file: [safeFilename] keeps the length of the name, gives a name that
    it would leave as it is, and lowers a text that holds code units below
    128 only. *)
Theorem pdfFileName_is_plain (section : Tab) (file : File) :
  forallb nameUnit (pdfFileName section file) = true
  /\ List.length (safeFilename (name file)) = List.length (name file)
  /\ safeFilename (safeFilename (name file)) = safeFilename (name file)
  /\ forallb (fun c => (c <? 128)%N) (replaceUnsafe (name file)) = true.
Proof.
  split; [|split; [|split]].
  - unfold pdfFileName. rewrite !forallb_app.
    assert (S : forallb nameUnit (safeFilename (name file)) = true).
    { rewrite safeFilename_map, forallb_forall. intros x Hx.
      apply in_map_iff in Hx as (c & E & _). subst x. apply safeUnit_nameUnit. }
    rewrite S. destruct section; reflexivity.
  - rewrite safeFilename_map. apply length_map.
  - rewrite !safeFilename_map, map_map. apply map_ext. apply safeUnit_twice.
  - apply replaceUnsafe_ascii.
Qed.

(** ** The interval of a stage *)

Lemma ticks_succ (n : nat) (p : float) :
  Progress.ticks (S n) p = Progress.progressTick (Progress.ticks n p).
Proof.
  replace (S n) with (n + 1) by lia. now rewrite ProgressFacts.ticks_add.
Qed.

Lemma first_ticks_below : ProgressRuns.along below99 665 0%float = true.
Proof. vm_compute. reflexivity. Qed.

Lemma ticks_below (n : nat) : below99 (Progress.ticks n 0%float) = true.
Proof.
  destruct (Nat.lt_ge_cases n 665) as [H|H].
  - now apply (ProgressFacts.along_sound below99 665 0%float first_ticks_below).
  - rewrite ProgressFacts.ticks_rest by (unfold ProgressRuns.lastRise; lia).
    vm_compute. reflexivity.
Qed.

(** X22: the interval of a stage never stops by itself: from the progress 0
    that a stage installs, after any number of firings the interval is still
    running, the progress is the value of that many ticks and it is below
    99; the branch that clears the interval at 99 is not taken, and only the
    handler stops the interval. *)
Theorem interval_runs_until_cleared (st : AppState) (n : nat) :
  progressInterval st = true -> progress st = 0%float ->
  progressInterval (fires n st) = true
  /\ progress (fires n st) = Progress.ticks n 0%float
  /\ (progress (fires n st) <? 99)%float = true.
Proof.
  intros Hi Hp.
  assert (H : progressInterval (fires n st) = true
              /\ progress (fires n st) = Progress.ticks n 0%float).
  { induction n as [|n (I & P)]; [auto|].
    cbn [fires]. split.
    - unfold intervalFires. rewrite I, P.
      pose proof (ticks_below n) as B. unfold below99 in B.
      apply andb_true_iff in B as [B _].
      destruct (99 <=? Progress.ticks n 0)%float; [discriminate B | exact I].
    - rewrite (intervalFires_progress _ I), P. symmetry. apply ticks_succ. }
  destruct H as [I P]. split; [exact I|]. split; [exact P|].
  rewrite P. pose proof (ticks_below n) as B. unfold below99 in B.
  now apply andb_true_iff in B as [_ B].
Qed.

(** ** An opening fence without its closing fence *)

Lemma slice_after_prefix (a b : jsstring) :
  slice (a ++ b) (Z.of_nat (List.length a)) (-3)
  = firstn (List.length b - 3) b.
Proof.
  unfold slice. rewrite length_app.
  destruct (Z.ltb_spec (Z.of_nat (List.length a)) 0); [lia|].
  destruct (Z.ltb_spec (-3) 0); [|lia].
  rewrite Z.min_l by lia. rewrite Nat2Z.id.
  replace (Z.to_nat _) with (List.length b - 3) by lia.
  now rewrite skipn_app, skipn_all, Nat.sub_diag.
Qed.

Lemma trim_after_fence (body : jsstring) (c : char16) :
  isWhiteSpace c = false ->
  trim (fence ++ body ++ [c]) = fence ++ body ++ [c].
Proof.
  intros H.
  change (fence ++ body ++ [c]) with (BACKTICK :: [BACKTICK; BACKTICK] ++ body ++ [c]).
  rewrite app_assoc. now apply trim_fixed.
Qed.

(** X23: after an opening fence the last three code units of the response
    are cut off without a look at them: for a response that begins with a
    fence, tagged or not, and does not end with white space, the text handed
    to [JSON.parse] is what follows the fence (and the tag) less its last
    three code units, trimmed, whether or not these are a closing fence. *)
Theorem closing_fence_not_checked (body : jsstring) (c : char16) :
  isWhiteSpace c = false ->
  stripFence (fence ++ lit "json" ++ body ++ [c])
  = trim (firstn (List.length (body ++ [c]) - 3) (body ++ [c]))
  /\ (startsWith (body ++ [c]) (lit "json") = false ->
      stripFence (fence ++ body ++ [c])
      = trim (firstn (List.length (body ++ [c]) - 3) (body ++ [c]))).
Proof.
  intros H. split.
  - unfold stripFence.
    rewrite (app_assoc (lit "json")), (trim_after_fence _ c H), <- app_assoc.
    change (fence ++ lit "json" ++ body ++ [c]) with (lit "```json" ++ body ++ [c]).
    rewrite startsWith_app.
    change 7%Z with (Z.of_nat (List.length (lit "```json"))).
    now rewrite slice_after_prefix.
  - intros J. unfold stripFence. rewrite (trim_after_fence _ c H).
    replace (startsWith (fence ++ body ++ [c]) (lit "```json")) with false
      by (change (lit "```json") with (fence ++ lit "json");
          now rewrite startsWith_cancel).
    rewrite startsWith_app.
    change 3%Z with (Z.of_nat (List.length fence)).
    now rewrite slice_after_prefix.
Qed.

(** ** Further runs on concrete inputs *)

Lemma started_run_three_ends_witness :
  let st' :=
    stateAfter (Quota.handleGenerate JSON.parse JSONText.stringify demoKey fullStore helpful
                                     1700000000000)
               readyState in
  error st' = Some {| message := lit "The quota has been exceeded."; retryable := true |}
  /\ studyMaterials st' = Some guideRecord
  /\ map materials (history st') = [guideRecord]
  /\ localStorage st' = None.
Proof.
  destruct (started_run_three_ends JSON.parse JSONText.stringify demoKey fullStore helpful
              1700000000000 readyState demoAudio demoFile eq_refl eq_refl eq_refl)
    as [(e & _ & Hm & _) | [(m & Hq & _) | (m & e & Hq & He & Hm & Hh & Hs & _)]].
  - vm_compute in Hm. discriminate Hm.
  - discriminate Hq.
  - cbv zeta. inversion Hq; subst e.
    split; [exact He|].
    assert (Em : m = guideRecord).
    { vm_compute in Hm. inversion Hm. vm_compute. reflexivity. }
    subst m. split; [exact Hm|]. split; [|exact Hs].
    rewrite Hh. reflexivity.
Defined.

Lemma onloadend_decodes_data_url_witness :
  run (onloadend (Some wavURL)) (initialState None)
  = (Ok tt, (withAudioData (Some demoAudio) (initialState None), [])).
Proof.
  apply (onloadend_decodes_data_url (initialState None) (lit "audio/wav")
           (lit "UklGRiQAAABXQVZF"));
    [discriminate | reflexivity | discriminate | reflexivity].
Defined.

Lemma run_refused_until_file_loaded_witness :
  studyMaterials (stateAfter (processFile (Some demoFile)) shownState) = None
  /\ generateDisabled (stateAfter (processFile (Some demoFile)) shownState) = true
  /\ eventsOf (generate JSON.parse JSONText.stringify demoKey helpful 0)
              (stateAfter (processFile (Some demoFile)) shownState)
     = [].
Proof.
  destruct (run_refused_until_file_loaded JSON.parse JSONText.stringify demoKey helpful
              0 shownState demoFile eq_refl) as (Hm & _ & _ & Hd & Hr).
  split; [exact Hm|]. split; [exact Hd|].
  unfold eventsOf. now rewrite Hr.
Defined.

Lemma decoded_media_reaches_stage1_witness :
  exists req rest,
    eventsOf (generate JSON.parse JSONText.stringify demoKey helpful 0)
             (stateAfter (onloadend (Some wavURL))
                         (stateAfter (processFile (Some demoFile)) (initialState None)))
    = SetLoadingMessage step1Message :: GenerateContent req :: rest
    /\ parts req
       = [InlineData (lit "UklGRiQAAABXQVZF") (lit "audio/wav"); Text transcriptionPrompt].
Proof.
  destruct (decoded_media_reaches_stage1 JSON.parse JSONText.stringify demoKey helpful 0
              (initialState None) demoFile (lit "audio/wav") (lit "UklGRiQAAABXQVZF"))
    as [_ H];
    [reflexivity | discriminate | reflexivity | discriminate | reflexivity | exact H].
Defined.

Lemma view_then_generate_witness :
  studyMaterials (stateAfter (handleViewFromHistory savedEntry) readyState)
  = Some earlierRecord
  /\ exists m,
      history (demoRun helpful (stateAfter (handleViewFromHistory savedEntry) readyState))
      = [{| id := 1700000000000; filename := lit "older.mp3"; materials := m |}].
Proof.
  destruct (view_then_generate JSON.parse JSONText.stringify demoKey helpful
              1700000000000 readyState savedEntry demoAudio eq_refl eq_refl)
    as (Hm & _ & _ & _ & _ & _ & Hh).
  split; [exact Hm|]. apply Hh. reflexivity.
Defined.


Lemma twoEntries_newestFirst : newestFirst (history twoEntries).
Proof.
  unfold newestFirst. repeat constructor.
Qed.

Lemma newest_first_kept_witness :
  newestFirst (history (afterDelete JSONText.stringify 7 twoEntries))
  /\ newestFirst (history (afterSave JSONText.stringify 9 (lit "c.mp3") earlierRecord
                                      twoEntries)).
Proof.
  destruct (newest_first_kept JSONText.stringify twoEntries twoEntries_newestFirst)
    as [Hd Hs].
  split; [apply Hd|]. apply Hs.
  intros x Hx. simpl in Hx. destruct Hx as [E|[E|[]]]; subst x; simpl; lia.
Defined.

Lemma distinct_ids_kept_witness :
  NoDup (map id (history (afterDelete JSONText.stringify 7 twoEntries)))
  /\ history (afterDelete JSONText.stringify 5 twoEntries) = [entry 7 "b.mp3"].
Proof.
  assert (N : NoDup (map id (history twoEntries))).
  { simpl. repeat constructor; simpl; intuition lia. }
  destruct (distinct_ids_kept JSONText.stringify twoEntries N) as (Hd & _ & Hx).
  split; [apply Hd|].
  apply (Hx [entry 7 "b.mp3"] (entry 5 "a.mp3") []). reflexivity.
Defined.

Lemma StudyNotes_returns_iff_lists_witness :
  (exists v, StudyNotes guideRecord = Ok v)
  /\ (exists e, StudyNotes terseRecord = Throw e).
Proof.
  split.
  - destruct (StudyNotes_returns_iff_lists guideRecord) as [[_ H] _].
    apply H. vm_compute. reflexivity.
  - destruct (StudyNotes_returns_iff_lists terseRecord) as (_ & H & _).
    apply H. vm_compute. reflexivity.
Defined.

Lemma completed_run_notes_panel_witness :
  (exists view, resultsPanel (demoRun helpful readyState) = Some (Ok (NotesPanel view))
                /\ shownFormulas view = [JString (lit "F = m*a")])
  /\ (exists e, resultsPanel (demoRun terse readyState) = Some (Throw e)).
Proof.
  split.
  - destruct (completed_run_notes_panel JSON.parse JSONText.stringify demoKey helpful
                1700000000000 readyState demoAudio demoFile
                eq_refl eq_refl eq_refl eq_refl)
      as (r & t & r2 & v & B1 & T1 & B2 & P & _ & _ & H).
    inversion B1; subst r. inversion T1; subst t.
    inversion B2; subst r2. inversion P; subst v.
    destruct (H eq_refl) as (view & Hv & _ & _ & _ & Hf & _).
    exists view. split; [exact Hv|].
    vm_compute in Hf. now inversion Hf.
  - destruct (completed_run_notes_panel JSON.parse JSONText.stringify demoKey terse
                1700000000000 readyState demoAudio demoFile
                eq_refl eq_refl eq_refl eq_refl)
      as (r & t & r2 & v & B1 & T1 & B2 & P & _ & H & _).
    apply H. inversion B1; subst r. inversion T1; subst t.
    inversion B2; subst r2. inversion P; subst v. vm_compute. reflexivity.
Defined.

Lemma completed_run_other_panels_witness :
  resultsPanel (withActiveTab TabTranscript (demoRun sparse readyState))
  = Some (Ok (TranscriptPanel (JString newton)))
  /\ resultsPanel (withActiveTab TabDetailed (demoRun sparse readyState))
     = Some (Throw (typeError "Cannot read properties (reading 'split')")).
Proof.
  destruct (completed_run_other_panels JSON.parse JSONText.stringify demoKey sparse
              1700000000000 readyState demoAudio demoFile
              eq_refl eq_refl eq_refl eq_refl)
    as (r & t & r3 & B1 & T1 & B3 & Ht & Hd).
  inversion B1; subst r. inversion T1; subst t. inversion B3; subst r3.
  split; [exact Ht | exact Hd].
Defined.

Lemma formatLine_keeps_text_witness :
  formatLine (lit "  ### Law of motion") = H4 (lit "Law of motion")
  /\ contentOf (formatLine (lit "  ### Law of motion")) <> []
  /\ formatLine (lit "### ") = P (lit "###").
Proof.
  split; [reflexivity|]. split; [|reflexivity].
  destruct (formatLine_keeps_text (lit "  ### Law of motion")) as (_ & _ & H & _).
  apply H. discriminate.
Defined.

Lemma formatLine_ignores_padding_witness :
  formatLine (lit "    " ++ lit "- nested item" ++ [13%N]) = formatLine (lit "- nested item").
Proof.
  apply (formatLine_ignores_padding (lit "    ") (lit "- nested item") [13%N]);
    reflexivity.
Defined.

Lemma interval_runs_until_cleared_witness :
  progressInterval (fires 700 ticking) = true
  /\ (progress (fires 700 ticking) <? 99)%float = true.
Proof.
  destruct (interval_runs_until_cleared ticking 700 eq_refl eq_refl) as (I & _ & B).
  split; assumption.
Defined.

Lemma closing_fence_not_checked_witness :
  stripFence (fence ++ lit "json" ++ ([LF] ++ lit "{" ++ q "a" ++ lit ":1") ++ [125%N])
  = lit "{" ++ q "a"
  /\ JSON.parse (lit "{" ++ q "a") = None.
Proof.
  destruct (closing_fence_not_checked ([LF] ++ lit "{" ++ q "a" ++ lit ":1") 125%N eq_refl)
    as [H _].
  split; [|reflexivity].
  etransitivity; [exact H | reflexivity].
Defined.
